(** * The monitoring decorator of [decorator.py]

    A shallow embedding of [monitor_function] and of the [wrapper] closure it
    builds, followed by the properties of the result envelope
    ([ExecutionResult]), of the validation gate, of logging and of the value
    handed back to the caller.

    Python values are a small inductive type; floats are IEEE binary64
    ([PrimFloat]), integers are [Z]; dictionaries that are only looked up are
    [gmap]s, dictionaries whose order is visible are association lists.
    Everything the wrapper obtains from outside the two source files (the
    clock, [psutil], [datetime], [traceback], pydantic, [json] and the
    configured [structlog] threshold) is a field of [Env]. *)

From Stdlib Require Import ZArith String Ascii List Bool Lia Floats Uint63.
From stdpp Require Import gmap strings.
Import ListNotations.

Local Open Scope string_scope.
Local Open Scope list_scope.

(** ** Python values and exceptions *)

(** [VObject classes attrs]: an instance that carries a [__dict__] ([attrs]);
    [classes] names the classes of its type's MRO, so that a pydantic model
    instance is a [VObject] whose [classes] holds the model's name. Every
    other value has no [__dict__]. Values are finite trees: a list or a
    dictionary that contains itself is not among them. *)
#[warnings="-register-all"]
Inductive value : Type :=
| VNone
| VBool (b : bool)
| VInt (n : Z)
| VFloat (x : float)
| VStr (s : string)
| VList (xs : list value)
| VDict (items : list (value * value))
| VObject (classes : list string) (attrs : list (string * value)).

(** Where an exception sits in the class hierarchy, as far as the three
    [except] clauses of [wrapper] can tell: pydantic's [ValidationError]
    (an [Exception]), any other [Exception], or a [BaseException] that is
    not an [Exception] ([KeyboardInterrupt], [SystemExit], ...). *)
Inductive exc_kind : Type := KValidationError | KException | KBaseException.

Record exc : Type := { exc_kind_of : exc_kind; exc_str : string }.

Definition is_ValidationError (e : exc) : bool :=
  match exc_kind_of e with KValidationError => true | _ => false end.

Definition is_Exception (e : exc) : bool :=
  match exc_kind_of e with KBaseException => false | _ => true end.

(** A pure computation that returns or raises. *)
Inductive outcome (A : Type) : Type :=
| Returns (a : A)
| Raises (e : exc).
Arguments Returns {A} a.
Arguments Raises {A} e.

Definition outcome_bind {A B : Type} (o : outcome A) (k : A -> outcome B) : outcome B :=
  match o with
  | Returns a => k a
  | Raises e => Raises e
  end.

(** ** Type hints, arguments, options *)

(** A value of the dictionary [get_type_hints(func)] returns. [wrapper] only
    asks [isinstance(t, type) and issubclass(t, BaseModel)] of it. *)
Inductive hint : Type :=
| HModel (cls : string)     (* a class deriving from pydantic's BaseModel *)
| HClass (cls : string)     (* any other class: float, int, a user class  *)
| HTyping (repr : string).  (* not a class: List[int], Optional[str], ... *)

Definition is_type (t : hint) : bool :=
  match t with HTyping _ => false | _ => true end.

Definition issubclass_BaseModel (t : hint) : bool :=
  match t with HModel _ => true | _ => false end.

(** The class to validate against when both tests of lines 97-98 and 115-116
    pass. *)
Definition structured (t : hint) : option string :=
  if is_type t && issubclass_BaseModel t
  then match t with HModel cls => Some cls | _ => None end
  else None.

(** The positional and keyword arguments of one call. *)
Record call_args : Type := { positional : list value; keywords : list (string * value) }.

(** The keyword arguments of [monitor_function], with their defaults. *)
Record options : Type := {
  validate_input : bool;
  validate_output : bool;
  log_execution : bool;
  log_level : string;
  return_raw_result : bool
}.

Definition default_options : options :=
  {| validate_input := true; validate_output := true; log_execution := true;
     log_level := "INFO"; return_raw_result := false |}.

(** ** The result envelope *)

Record ExecutionResult : Type := {
  result : value;
  status : string;
  errors : option (list string);
  execution_time : float;
  memory_usage : list (string * Z);
  cpu_usage : float;
  timestamp : string;
  function_name : string
}.

(** Severities of the three logger methods [wrapper] calls, with structlog's
    numeric levels. *)
Inductive severity : Type := DEBUG | INFO | ERROR.

Definition levelno (s : severity) : Z :=
  match s with DEBUG => 10 | INFO => 20 | ERROR => 40 end%Z.

(** What one call leaves behind outside its return value: the underlying
    function was entered, or the logger printed a record. [Logged level
    message fields]: the method [level] of the logger, called with
    [message], printed one line, the rendering of the event dictionary
    [fields]. *)
Inductive event : Type :=
| Called (name : string) (a : call_args)
| Logged (level : severity) (message : string) (fields : list (string * value)).

(** ** Strings *)

Definition upper_ascii (c : ascii) : ascii :=
  let n := nat_of_ascii c in
  if (97 <=? n)%nat && (n <=? 122)%nat then ascii_of_nat (n - 32) else c.

(** [str.upper] on the ASCII range; other bytes are left alone, which cannot
    change whether the result equals ["DEBUG"]. *)
Fixpoint upper (s : string) : string :=
  match s with
  | EmptyString => EmptyString
  | String c s' => String (upper_ascii c) (upper s')
  end.

(** [type(v).__name__], for the text of an [AttributeError]. *)
Definition type_name (v : value) : string :=
  match v with
  | VNone => "NoneType"
  | VBool _ => "bool"
  | VInt _ => "int"
  | VFloat _ => "float"
  | VStr _ => "str"
  | VList _ => "list"
  | VDict _ => "dict"
  | VObject cs _ => match cs with c :: _ => c | [] => "object" end
  end.

Definition AttributeError_dict (v : value) : exc :=
  {| exc_kind_of := KException;
     exc_str := "'" +:+ type_name v +:+ "' object has no attribute '__dict__'" |}.

Definition TypeError_keywords : exc :=
  {| exc_kind_of := KException; exc_str := "keywords must be strings" |}.

(** ** Collaborators

    What [wrapper] reads from outside the repository. [World] is the state of
    the process and its machine; each sampler returns a reading and the world
    after it. [model_construct cls kw] builds an instance of the pydantic
    model class [cls] from the keyword arguments [kw], or raises;
    [serialize v] is pydantic's dump of the value [v] of a field declared
    [Any], which raises on a value it does not dump (one nested too deep, for
    one); [format_exc] is [traceback.format_exc()] inside a handler of the
    given exception.

    The last three fields are the logger configured on lines 16-28:
    [LOG_LEVEL] is the threshold handed to
    [structlog.make_filtering_bound_logger] (which accepts 0, 10, 20, 30, 40
    and 50 only: with any other value the module does not import),
    [utc_timestamp w] is the stamp [TimeStamper(fmt="iso")] reads from the
    UTC clock in the world [w] (the world is taken to be the same after it:
    [wrapper] takes no reading after the logger), and [json_dumps v] is the
    [json.dumps] call of [JSONRenderer] on the dictionary [v], followed by
    the print of its text: it returns, or it raises (a [TypeError] on a
    dictionary key that is no string, number, boolean or [None], for one). *)
Record Env : Type := {
  World : Type;
  time_time : World -> float * World;
  memory_rss : World -> Z * World;
  cpu_percent : World -> float * World;
  now_isoformat : World -> string * World;
  format_exc : exc -> string;
  model_construct : string -> list (string * value) -> outcome unit;
  serialize : value -> outcome value;
  LOG_LEVEL : Z;
  utc_timestamp : World -> string;
  json_dumps : value -> outcome unit
}.

Section Wrapper.

Context (E : Env).

(** ** Computations of the wrapper: a world threaded through, events written
    out, and an exception or a value at the end. *)
Definition M (A : Type) : Type := World E -> outcome A * World E * list event.

Definition ret {A : Type} (a : A) : M A := fun w => (Returns a, w, []).

Definition raise {A : Type} (e : exc) : M A := fun w => (Raises e, w, []).

Definition bind {A B : Type} (m : M A) (k : A -> M B) : M B :=
  fun w =>
    match m w with
    | (Returns a, w1, ev1) =>
        let '(r, w2, ev2) := k a w1 in (r, w2, ev1 ++ ev2)
    | (Raises e, w1, ev1) => (Raises e, w1, ev1)
    end.

Definition sample {A : Type} (f : World E -> A * World E) : M A :=
  fun w => let '(a, w1) := f w in (Returns a, w1, []).

Definition emit (ev : event) : M unit := fun w => (Returns tt, w, [ev]).

Definition lift {A : Type} (o : outcome A) : M A := fun w => (o, w, []).

(** A reading that takes nothing from the world. *)
Definition ask {A : Type} (f : World E -> A) : M A := fun w => (Returns (f w), w, []).

#[local] Instance M_ret : MRet M := @ret.
#[local] Instance M_bind : MBind M := fun A B k m => bind m k.

(** A Python callable as [wrapper] uses it: [func.__name__],
    [inspect.signature(func)] (whose [bind] followed by [apply_defaults] gives
    the ordered [arguments], or raises [TypeError]), [get_type_hints(func)],
    and the call itself. *)
Record pyfunc : Type := {
  fn_name : string;
  fn_signature : outcome (call_args -> outcome (list (string * value)));
  fn_type_hints : outcome (gmap string hint);
  fn_body : call_args -> M value
}.

(** The call of [func] on line 110. *)
Definition call (func : pyfunc) (a : call_args) : M value :=
  _ ← emit (Called (fn_name func) a); fn_body func a.

(** ** Accept or coerce (lines 100-101 and 118-119) *)

Definition isinstance (v : value) (cls : string) : bool :=
  match v with
  | VObject classes _ => bool_decide (cls ∈ classes)
  | _ => false
  end.

(** [v if isinstance(v, dict) else v.__dict__] *)
Definition mapping_of (v : value) : outcome (list (value * value)) :=
  match v with
  | VDict items => Returns items
  | VObject _ attrs => Returns (map (fun '(k, x) => (VStr k, x)) attrs)
  | _ => Raises (AttributeError_dict v)
  end.

(** Unpacking a mapping into keyword arguments: every key has to be a
    string. *)
Fixpoint unpack_keywords (items : list (value * value)) : outcome (list (string * value)) :=
  match items with
  | [] => Returns []
  | (VStr k, x) :: rest =>
      outcome_bind (unpack_keywords rest) (fun kw => Returns ((k, x) :: kw))
  | _ :: _ => Raises TypeError_keywords
  end.

Definition coerce (cls : string) (v : value) : outcome unit :=
  outcome_bind (mapping_of v) (fun items =>
  outcome_bind (unpack_keywords items) (fun kw =>
  model_construct E cls kw)).

Definition accept_or_coerce (cls : string) (v : value) : outcome unit :=
  if negb (isinstance v cls) then coerce cls v else Returns tt.

(** ** Input validation (lines 86-106) *)

(** One round of the loop of line 93, with the inner [try] of lines 99-103:
    the error list after it, and the exception that leaves the loop, if any. *)
Definition validate_param (type_hints : gmap string hint)
    (param_name : string) (param_value : value) (errors : list string)
  : list string * option exc :=
  match type_hints !! param_name with
  | Some expected_type =>
      match structured expected_type with
      | Some cls =>
          match accept_or_coerce cls param_value with
          | Returns _ => (errors, None)
          | Raises e =>
              if is_ValidationError e
              then (errors ++ ["Input validation failed for " +:+ param_name +:+ ": " +:+ exc_str e], None)
              else (errors, Some e)
          end
      | None => (errors, None)
      end
  | None => (errors, None)
  end.

Fixpoint validate_arguments (type_hints : gmap string hint)
    (arguments : list (string * value)) (errors : list string)
  : list string * option exc :=
  match arguments with
  | [] => (errors, None)
  | (param_name, param_value) :: rest =>
      match validate_param type_hints param_name param_value errors with
      | (errors', None) => validate_arguments type_hints rest errors'
      | (errors', Some e) => (errors', Some e)
      end
  end.

(** Lines 86-106. The handler of line 105 appends to the list as the loop
    left it; an exception that is no [Exception] passes it. *)
Definition input_validation (o : options)
    (sig : call_args -> outcome (list (string * value)))
    (type_hints : gmap string hint) (a : call_args)
  : list string * option exc :=
  if validate_input o && bool_decide (type_hints ≠ ∅) then
    let '(errors, raised) :=
      match sig a with
      | Returns bound_args => validate_arguments type_hints bound_args []
      | Raises e => ([], Some e)
      end in
    match raised with
    | Some e =>
        if is_Exception e
        then (errors ++ ["Input validation error: " +:+ exc_str e], None)
        else (errors, Some e)
    | None => (errors, None)
    end
  else ([], None).

(** ** Output validation (lines 113-122): the message to append, if any. *)
Definition output_validation (o : options) (type_hints : gmap string hint)
    (result : value) : outcome (option string) :=
  if validate_output o then
    match type_hints !! "return" with
    | Some return_type =>
        match structured return_type with
        | Some cls =>
            match accept_or_coerce cls result with
            | Returns _ => Returns None
            | Raises e =>
                if is_ValidationError e
                then Returns (Some ("Output validation failed: " +:+ exc_str e))
                else Raises e
            end
        | None => Returns None
        end
    | None => Returns None
    end
  else Returns None.

(** ** The guarded block (lines 80-130) *)

(** The three locals the block leaves to the rest of [wrapper]. *)
Record locals : Type := { l_errors : list string; l_result : value; l_status : string }.

(** The handler of lines 126-130. *)
Definition execution_handler (errors : list string) (e : exc) : M locals :=
  if is_Exception e then
    mret {| l_errors := errors ++ ["Execution error: " +:+ exc_str e;
                                   "Traceback: " +:+ format_exc E e];
            l_result := VNone;
            l_status := "error" |}
  else raise e.

(** [try: m except Exception as e: handler e], for a handler that re-raises
    what it does not catch. *)
Definition try_except {A : Type} (m : M A) (handler : exc -> M A) : M A :=
  fun w =>
    match m w with
    | (Raises e, w1, ev) =>
        let '(r, w2, ev2) := handler e w1 in (r, w2, ev ++ ev2)
    | returned => returned
    end.

Definition try_block (o : options) (func : pyfunc)
    (sig : call_args -> outcome (list (string * value)))
    (type_hints : gmap string hint) (a : call_args) : M locals :=
  match input_validation o sig type_hints a with
  | (errors, Some e) => execution_handler errors e
  | (errors, None) =>
      match errors with
      | [] =>
          try_except
            (result ← call func a;
             failure ← lift (output_validation o type_hints result);
             mret match failure with
                  | None =>
                      {| l_errors := errors; l_result := result; l_status := "success" |}
                  | Some msg =>
                      {| l_errors := errors ++ [msg]; l_result := result;
                         l_status := "error" |}
                  end)
            (execution_handler errors)
      | _ :: _ => mret {| l_errors := errors; l_result := VNone; l_status := "error" |}
      end
  end.

(** ** Metrics and envelope (lines 71-78 and 132-159) *)

(** [max(a, b)] of two floats: the first one unless the second is greater. *)
Definition float_max (a b : float) : float := if PrimFloat.ltb a b then b else a.

(** Lines 134-159: the envelope, from the locals and the readings. *)
Definition envelope (func : pyfunc) (l : locals)
    (start_time end_time : float) (memory_before memory_after : Z)
    (cpu_before cpu_after : float) (now : string) : ExecutionResult :=
  let execution_time := PrimFloat.sub end_time start_time in
  let memory_peak := memory_after in
  let cpu_usage := float_max cpu_before cpu_after in
  {| result := l_result l;
     status := l_status l;
     errors := match l_errors l with [] => None | _ :: _ => Some (l_errors l) end;
     execution_time := execution_time;
     memory_usage := [("before", memory_before);
                      ("after", memory_after);
                      ("peak", memory_peak);
                      ("delta", (memory_after - memory_before)%Z)];
     cpu_usage := cpu_usage;
     timestamp := now;
     function_name := fn_name func |}.

(** [wrapper] up to the construction of [execution_result]: the locals of the
    guarded block and the envelope built from them. *)
Definition monitored (o : options) (func : pyfunc) (a : call_args)
  : M (locals * ExecutionResult) :=
  start_time ← sample (time_time E);
  memory_before ← sample (memory_rss E);
  cpu_before ← sample (cpu_percent E);
  sig ← lift (fn_signature func);
  type_hints ← lift (fn_type_hints func);
  l ← try_block o func sig type_hints a;
  end_time ← sample (time_time E);
  memory_after ← sample (memory_rss E);
  cpu_after ← sample (cpu_percent E);
  now ← sample (now_isoformat E);
  mret (l, envelope func l start_time end_time memory_before memory_after
                    cpu_before cpu_after now).

(** [execution_result.model_dump()]: the fields in declaration order, with
    the dump of [result]. The other fields hold strings, numbers and
    containers of them, which dump as they are; the call raises what the dump
    of [result] raises. *)
Definition model_dump (r : ExecutionResult) : outcome (list (string * value)) :=
  outcome_bind (serialize E (result r)) (fun dumped_result =>
  Returns
    [("result", dumped_result);
     ("status", VStr (status r));
     ("errors", match errors r with
                | None => VNone
                | Some es => VList (map VStr es)
                end);
     ("execution_time", VFloat (execution_time r));
     ("memory_usage", VDict (map (fun '(k, n) => (VStr k, VInt n)) (memory_usage r)));
     ("cpu_usage", VFloat (cpu_usage r));
     ("timestamp", VStr (timestamp r));
     ("function_name", VStr (function_name r))]).

(** A dictionary with string keys as a value. *)
Definition dict_value (d : list (string * value)) : value :=
  VDict (map (fun '(k, v) => (VStr k, v)) d).

(** ** Logging (lines 16-30 and 161-171) *)

(** The name structlog hands to the processors for each method. *)
Definition method_name (level : severity) : string :=
  match level with DEBUG => "debug" | INFO => "info" | ERROR => "error" end.

(** [event_dict[key] = v] on a dictionary kept in insertion order: the item
    is replaced where it stands, or added at the end. *)
Fixpoint setitem (key : string) (v : value) (event_dict : list (string * value))
  : list (string * value) :=
  match event_dict with
  | [] => [(key, v)]
  | (k, x) :: rest =>
      if String.eqb k key then (key, v) :: rest else (k, x) :: setitem key v rest
  end.

(** The three processors of lines 20-24, in order. *)
Definition TimeStamper (stamp : string) (event_dict : list (string * value))
  : list (string * value) :=
  setitem "timestamp" (VStr stamp) event_dict.

Definition add_log_level (level : severity) (event_dict : list (string * value))
  : list (string * value) :=
  setitem "level" (VStr (method_name level)) event_dict.

Definition JSONRenderer (event_dict : list (string * value))
  : outcome (list (string * value)) :=
  outcome_bind (json_dumps E (dict_value event_dict)) (fun _ => Returns event_dict).

(** The event dictionary the renderer is handed for a call of the method
    [level] with [message] and the keyword arguments [fields]: the keyword
    arguments with the message under ["event"], stamped, with the name of the
    method under ["level"]. *)
Definition record_of (level : severity) (message : string)
    (fields : list (string * value)) (stamp : string) : list (string * value) :=
  let event_dict := setitem "event" (VStr message) fields in
  add_log_level level (TimeStamper stamp event_dict).

(** One method of the filtering bound logger. Under the threshold the method
    does nothing. Otherwise the event dictionary goes through the
    processors, and the line is printed unless the renderer raises: no
    handler stands between the renderer and the caller of the method. *)
Definition logger (level : severity) (message : string)
    (fields : list (string * value)) : M unit :=
  if (LOG_LEVEL E <=? levelno level)%Z then
    stamp ← ask (utc_timestamp E);
    rendered ← lift (JSONRenderer (record_of level message fields stamp));
    emit (Logged level message rendered)
  else mret tt.

(** The method lines 165-171 pick. *)
Definition log_severity (o : options) (status : string) : severity :=
  if String.eqb status "success" then
    if String.eqb (upper (log_level o)) "DEBUG" then DEBUG else INFO
  else ERROR.

Definition log_message (status : string) : string :=
  if String.eqb status "success"
  then "Function executed successfully"
  else "Function execution failed".

(** Lines 162-171: the envelope is dumped first, whatever the threshold. *)
Definition log_result (o : options) (status : string)
    (execution_result : ExecutionResult) : M unit :=
  if log_execution o then
    log_data ← lift (model_dump execution_result);
    logger (log_severity o status) (log_message status) log_data
  else mret tt.

(** ** The value handed back (lines 173-177) *)
Definition returned (o : options) (result : value) (status : string)
    (execution_result : ExecutionResult) : outcome value :=
  if return_raw_result o && String.eqb status "success"
  then Returns result
  else outcome_bind (model_dump execution_result) (fun d => Returns (dict_value d)).

(** ** [wrapper], [decorator], [monitor_function] *)

(** Lines 161-177 stand after the guarded block: what [model_dump] or the
    logger raises leaves [wrapper]. *)
Definition wrapper (o : options) (func : pyfunc) (a : call_args) : M value :=
  '(l, execution_result) ← monitored o func a;
  _ ← log_result o (l_status l) execution_result;
  lift (returned o (l_result l) (l_status l) execution_result).

(** [functools.wraps] copies [__name__] and [__annotations__] and sets
    [__wrapped__], which [inspect.signature] and [get_type_hints] follow: the
    wrapped callable answers introspection as [func] does. *)
Definition decorator (o : options) (func : pyfunc) : pyfunc :=
  {| fn_name := fn_name func;
     fn_signature := fn_signature func;
     fn_type_hints := fn_type_hints func;
     fn_body := wrapper o func |}.

Definition monitor_function (o : options) : pyfunc -> pyfunc := decorator o.

End Wrapper.

Arguments fn_name {E} p.
Arguments fn_signature {E} p.
Arguments fn_type_hints {E} p.
Arguments fn_body {E} p a w.
Arguments Build_pyfunc {E}.

(** The world in which the underlying function is entered: after the three
    readings of lines 71-74. *)
Definition start_world (E : Env) (w : World E) : World E :=
  snd (cpu_percent E (snd (memory_rss E (snd (time_time E w))))).

(** The world [wrapper] leaves: after the four readings of lines 133-157. *)
Definition end_world (E : Env) (w : World E) : World E :=
  snd (now_isoformat E (snd (cpu_percent E (snd (memory_rss E (snd (time_time E w))))))).

(** The envelope built when the guarded block, entered from the world [w],
    leaves the locals [l] and the world [w1]. *)
Definition envelope_at (E : Env) (func : pyfunc E) (l : locals) (w w1 : World E)
  : ExecutionResult :=
  let w' := snd (time_time E w) in
  let w1' := snd (time_time E w1) in
  let w1'' := snd (memory_rss E w1') in
  envelope E func l
    (fst (time_time E w)) (fst (time_time E w1))
    (fst (memory_rss E w')) (fst (memory_rss E w1'))
    (fst (cpu_percent E (snd (memory_rss E w')))) (fst (cpu_percent E w1''))
    (fst (now_isoformat E (snd (cpu_percent E w1'')))).

(** Whether the declared type of [param_name] passes the test of lines
    97-98, i.e. is a structured-record shape. *)
Definition has_structured_hint (type_hints : gmap string hint) (param_name : string) : bool :=
  match type_hints !! param_name with
  | Some expected_type =>
      match structured expected_type with Some _ => true | None => false end
  | None => false
  end.

(** ** Signs of binary64 values, on their specification *)

Definition sf_nonneg (x : spec_float) : bool :=
  match x with
  | S754_zero _ => true
  | S754_infinity s => negb s
  | S754_finite s _ _ => negb s
  | S754_nan => false
  end.

Definition sf_finite (x : spec_float) : bool :=
  match x with
  | S754_zero _ | S754_finite _ _ _ => true
  | _ => false
  end.

(** ** A concrete process and the functions of [main.py]

    Collaborators to run the wrapper on: a world that counts the readings
    taken from it, a clock and a logger threshold chosen by the caller, a
    validator for the two models of [main.py] that takes every field
    strictly, a dump that always succeeds, and a renderer that refuses the
    dictionary keys [json.dumps] refuses. *)
Module Sample.

Fixpoint field (k : string) (kw : list (string * value)) : option value :=
  match kw with
  | [] => None
  | (k', v) :: rest => if String.eqb k k' then Some v else field k rest
  end.

Definition is_str (v : value) : bool := match v with VStr _ => true | _ => false end.
Definition is_int (v : value) : bool := match v with VInt _ => true | _ => false end.

(** The declared fields of a model class, each with the test of its type. *)
Definition schema (cls : string) : list (string * (value -> bool)) :=
  if String.eqb cls "UserInput" then
    [("name", is_str); ("age", is_int); ("email", is_str)]
  else if String.eqb cls "UserOutput" then
    [("id", is_int); ("name", is_str); ("age", is_int); ("email", is_str);
     ("created_at", is_str)]
  else [].

Fixpoint violations (fields : list (string * (value -> bool)))
    (kw : list (string * value)) : list string :=
  match fields with
  | [] => []
  | (k, ok) :: rest =>
      match field k kw with
      | None => (k +:+ ": Field required") :: violations rest kw
      | Some v =>
          if ok v then violations rest kw
          else (k +:+ ": Input of the wrong type") :: violations rest kw
      end
  end.

Definition construct (cls : string) (kw : list (string * value)) : outcome unit :=
  match violations (schema cls) kw with
  | [] => Returns tt
  | vs =>
      Raises {| exc_kind_of := KValidationError;
                exc_str := "validation errors for " +:+ cls +:+ ": " +:+
                           String.concat "; " vs |}
  end.

(** [model_dump] on a field declared [Any]: a model instance becomes the
    dictionary of its dumped fields, also inside a list or as a value of a
    dictionary; any other value is left as it is. *)
Fixpoint dump (v : value) : value :=
  match v with
  | VObject classes attrs =>
      if bool_decide ("BaseModel" ∈ classes)
      then VDict (map (fun '(k, x) => (VStr k, dump x)) attrs)
      else v
  | VList xs => VList (map dump xs)
  | VDict items => VDict (map (fun '(k, x) => (k, dump x)) items)
  | _ => v
  end.

(** [json.dumps] with structlog's fallback for values of other types: a key
    of a dictionary has to be a string, a number, a boolean or [None]. *)
Definition is_json_key (k : value) : bool :=
  match k with
  | VNone | VBool _ | VInt _ | VFloat _ | VStr _ => true
  | _ => false
  end.

Definition TypeError_json_key (k : value) : exc :=
  {| exc_kind_of := KException;
     exc_str := "keys must be str, int, float, bool or None, not " +:+ type_name k |}.

Fixpoint first_raised (rs : list (outcome unit)) : outcome unit :=
  match rs with
  | [] => Returns tt
  | Returns _ :: rest => first_raised rest
  | Raises e :: _ => Raises e
  end.

Fixpoint dumps (v : value) : outcome unit :=
  match v with
  | VList xs => first_raised (map dumps xs)
  | VDict items =>
      first_raised
        (map (fun '(k, x) => if is_json_key k then dumps x
                             else Raises (TypeError_json_key k)) items)
  | _ => Returns tt
  end.

Definition float_of_nat (n : nat) : float :=
  PrimFloat.of_uint63 (Uint63.of_Z (Z.of_nat n)).

(** The process: [clock] gives the reading of [time.time()] at each tick. *)
Definition process (clock : nat -> float) (threshold : Z) : Env :=
  {| World := nat;
     time_time := fun n => (clock n, S n);
     memory_rss := fun n => ((4096 * Z.of_nat n)%Z, S n);
     cpu_percent := fun n => (float_of_nat (n mod 3), S n);
     now_isoformat := fun n => ("2025-01-01T00:00:00", S n);
     format_exc := fun e => "Traceback (most recent call last): " +:+ exc_str e;
     model_construct := construct;
     serialize := fun v => Returns (dump v);
     LOG_LEVEL := threshold;
     utc_timestamp := fun n => "2025-01-01T00:00:00Z";
     json_dumps := dumps |}.

(** A clock that advances by one second per reading. *)
Definition steady : nat -> float := float_of_nat.

(** A clock set back after its first reading. *)
Definition set_back (n : nat) : float :=
  match n with O => float_of_nat 10 | S _ => float_of_nat 5 end.

Definition TypeError (msg : string) : exc :=
  {| exc_kind_of := KException; exc_str := msg |}.

(** [Signature.bind] for parameters that are all positional-or-keyword and
    have no default. *)
Fixpoint bind_params (names : list string) (pos : list value)
    (kw : list (string * value)) : outcome (list (string * value)) :=
  match names, pos with
  | [], [] =>
      match kw with
      | [] => Returns []
      | (k, _) :: _ => Raises (TypeError ("got an unexpected keyword argument '" +:+ k +:+ "'"))
      end
  | [], _ :: _ => Raises (TypeError "too many positional arguments")
  | n :: names', v :: pos' =>
      match field n kw with
      | Some _ => Raises (TypeError ("multiple values for argument '" +:+ n +:+ "'"))
      | None =>
          outcome_bind (bind_params names' pos' kw) (fun r => Returns ((n, v) :: r))
      end
  | n :: names', [] =>
      match field n kw with
      | Some v =>
          outcome_bind
            (bind_params names' [] (filter (fun p => negb (String.eqb (fst p) n)) kw))
            (fun r => Returns ((n, v) :: r))
      | None => Raises (TypeError ("missing a required argument: '" +:+ n +:+ "'"))
      end
  end.

Definition signature (names : list string) : call_args -> outcome (list (string * value)) :=
  fun a => bind_params names (positional a) (keywords a).

Definition positionally (vs : list value) : call_args :=
  {| positional := vs; keywords := [] |}.

Section Functions.

Context (E : Env).

(** [create_user(user_data: UserInput) -> UserOutput] *)
Definition create_user : pyfunc E :=
  {| fn_name := "create_user";
     fn_signature := Returns (signature ["user_data"]);
     fn_type_hints :=
       Returns (<["user_data" := HModel "UserInput"]>
                (<["return" := HModel "UserOutput"]> ∅));
     fn_body := fun a =>
       match signature ["user_data"] a with
       | Returns [(_, VObject _ attrs)] =>
           match field "name" attrs, field "age" attrs, field "email" attrs with
           | Some name, Some age, Some email =>
               bind E (sample E (now_isoformat E)) (fun now =>
               ret E (VObject ["UserOutput"; "BaseModel"]
                        [("id", VInt 12345); ("name", name); ("age", age);
                         ("email", email); ("created_at", VStr now)]))
           | _, _, _ => raise E {| exc_kind_of := KException;
                                   exc_str := "object has no such attribute" |}
           end
       | Returns _ => raise E {| exc_kind_of := KException;
                                 exc_str := "object has no attribute 'name'" |}
       | Raises e => raise E e
       end |}.

Definition number (v : value) : option float :=
  match v with
  | VFloat x => Some x
  | VInt (Zpos p) => Some (PrimFloat.of_uint63 (Uint63.of_Z (Zpos p)))
  | VInt Z0 => Some 0%float
  | VInt (Zneg p) => Some (PrimFloat.opp (PrimFloat.of_uint63 (Uint63.of_Z (Zpos p))))
  | _ => None
  end.

(** [divide_numbers(a: float, b: float) -> float] *)
Definition divide_numbers : pyfunc E :=
  {| fn_name := "divide_numbers";
     fn_signature := Returns (signature ["a"; "b"]);
     fn_type_hints :=
       Returns (<["a" := HClass "float"]>
                (<["b" := HClass "float"]> (<["return" := HClass "float"]> ∅)));
     fn_body := fun a =>
       match signature ["a"; "b"] a with
       | Returns [(_, x); (_, y)] =>
           match number x, number y with
           | Some x, Some y =>
               if PrimFloat.eqb y 0 then
                 raise E {| exc_kind_of := KException;
                            exc_str := "Division by zero is not allowed" |}
               else ret E (VFloat (PrimFloat.div x y))
           | _, _ => raise E (TypeError "unsupported operand type(s) for /")
           end
       | Returns _ => raise E (TypeError "wrong number of arguments")
       | Raises e => raise E e
       end |}.

(** A function of two model parameters that returns its second argument. *)
Definition second_user : pyfunc E :=
  {| fn_name := "second_user";
     fn_signature := Returns (signature ["first"; "second"]);
     fn_type_hints :=
       Returns (<["first" := HModel "UserInput"]>
                (<["second" := HModel "UserInput"]> ∅));
     fn_body := fun a =>
       match signature ["first"; "second"] a with
       | Returns [_; (_, y)] => ret E y
       | Returns _ => raise E (TypeError "wrong number of arguments")
       | Raises e => raise E e
       end |}.

(** A function without annotations that returns [v] whatever it is given. *)
Definition constant (v : value) : pyfunc E :=
  {| fn_name := "constant";
     fn_signature := Returns (fun a => Returns (map (fun x => ("args", x)) (positional a)));
     fn_type_hints := Returns ∅;
     fn_body := fun _ => ret E v |}.

(** The same function with an annotation that names nothing:
    [get_type_hints] raises [NameError]. *)
Definition unresolved (v : value) : pyfunc E :=
  {| fn_name := "unresolved";
     fn_signature := fn_signature (constant v);
     fn_type_hints := Raises {| exc_kind_of := KException;
                                exc_str := "name 'Undefined' is not defined" |};
     fn_body := fun _ => ret E v |}.

(** A function declared to return a [UserOutput] that returns [v]. *)
Definition declared_user (v : value) : pyfunc E :=
  {| fn_name := "declared_user";
     fn_signature := Returns (signature []);
     fn_type_hints := Returns (<["return" := HModel "UserOutput"]> ∅);
     fn_body := fun _ => ret E v |}.

End Functions.

Definition john : value :=
  VObject ["UserInput"; "BaseModel"]
    [("name", VStr "John Doe"); ("age", VInt 30); ("email", VStr "john@example.com")].

(** The dictionary of line 82 of [main.py]: [age] is a string. *)
Definition invalid_user : value :=
  VDict [(VStr "name", VStr "John"); (VStr "age", VStr "thirty");
         (VStr "email", VStr "invalid")].

(** A dictionary with an instance of a class of the program as its key. *)
Definition keyed_by_object : value :=
  VDict [(VObject ["Key"; "object"] [], VInt 1)].

(** The process with everything logged, with the threshold at [INFO], and
    with the clock set back. *)
Definition verbose : Env := process steady 10.
Definition filtered : Env := process steady 20.
Definition drifting : Env := process set_back 10.

Definition debug_options : options :=
  {| validate_input := true; validate_output := true; log_execution := true;
     log_level := "DEBUG"; return_raw_result := false |}.

Definition quiet : options :=
  {| validate_input := false; validate_output := false; log_execution := false;
     log_level := "INFO"; return_raw_result := false |}.

Definition quiet_raw : options :=
  {| validate_input := false; validate_output := false; log_execution := false;
     log_level := "INFO"; return_raw_result := true |}.

End Sample.

(** ** The configuration of [main.py] (lines 11-14, 32-37 and 54-59) *)
Module Main.

(** The truth value of a Python value, as [if] and [and] test it (an
    instance of a class without [__bool__] and [__len__] is true). *)
Definition truthy (v : value) : bool :=
  match v with
  | VNone => false
  | VBool b => b
  | VInt n => negb (n =? 0)%Z
  | VFloat x => negb (PrimFloat.eqb x 0)
  | VStr s => negb (String.eqb s "")
  | VList xs => match xs with [] => false | _ :: _ => true end
  | VDict items => match items with [] => false | _ :: _ => true end
  | VObject _ _ => true
  end.

(** [os.environ.get(key, default)]: the environment maps names to strings. *)
Definition environ_get (environ : gmap string string) (key : string)
    (default : value) : value :=
  match environ !! key with
  | Some s => VStr s
  | None => default
  end.

Definition VALIDATE_INPUT (environ : gmap string string) : value :=
  environ_get environ "VALIDATE_INPUT" (VBool true).

Definition VALIDATE_OUTPUT (environ : gmap string string) : value :=
  environ_get environ "VALIDATE_OUTPUT" (VBool true).

Definition LOG_EXECUTION (environ : gmap string string) : value :=
  environ_get environ "LOG_EXECUTION" (VBool true).

Definition RETURN_RAW_RESULT (environ : gmap string string) : value :=
  environ_get environ "RAW_RESULT" (VBool false).

(** The keyword arguments both decorators of [main.py] pass. [wrapper] only
    tests them ([if], [and]), so each one acts through its truth value;
    [log_level] is not passed and keeps its default. *)
Definition decorator_options (environ : gmap string string) : options :=
  {| validate_input := truthy (VALIDATE_INPUT environ);
     validate_output := truthy (VALIDATE_OUTPUT environ);
     log_execution := truthy (LOG_EXECUTION environ);
     log_level := "INFO";
     return_raw_result := truthy (RETURN_RAW_RESULT environ) |}.

End Main.

(** The message of one round of the validation loop for a rejected
    argument, and no message for any other. *)
Definition rejection (E : Env) (type_hints : gmap string hint)
    (argument : string * value) : list string :=
  fst (validate_param E type_hints (fst argument) (snd argument) []).

(** A key that keyword unpacking refuses. *)
Definition is_string_key (item : value * value) : bool :=
  match fst item with VStr _ => true | _ => false end.

(** Values that carry fields: dictionaries and instances with a [__dict__]. *)
Definition has_fields (v : value) : bool :=
  match v with VDict _ | VObject _ _ => true | _ => false end.

(** * Properties *)

(** ** Binary64 subtraction keeps the order *)

Section FloatFacts.

Local Open Scope Z_scope.

Lemma sf_nonneg_leb x : sf_nonneg x = true -> SFleb (S754_zero false) x = true.
Proof. destruct x as [s|[]| |[] m e]; simpl; intros H; try discriminate; reflexivity. Qed.

Lemma shr_1_nonneg mrs : 0 <= shr_m mrs -> 0 <= shr_m (shr_1 mrs).
Proof.
  destruct mrs as [m r s]; simpl.
  destruct m as [|[p|p|]|[p|p|]]; simpl; lia.
Qed.

Lemma iter_pos_nonneg n : forall mrs, 0 <= shr_m mrs -> 0 <= shr_m (SpecFloat.iter_pos shr_1 n mrs).
Proof.
  induction n as [n IH|n IH|]; intros mrs H; simpl.
  - apply IH, IH, shr_1_nonneg, H.
  - apply IH, IH, H.
  - apply shr_1_nonneg, H.
Qed.

Lemma shr_fexp_nonneg m e l :
  0 <= m -> 0 <= shr_m (fst (shr_fexp prec emax m e l)).
Proof.
  intros H. unfold shr_fexp, shr.
  assert (H0 : 0 <= shr_m (shr_record_of_loc m l)) by (destruct l as [|[]]; exact H).
  destruct (fexp prec emax (Zdigits2 m + e) - e); simpl; auto.
  apply iter_pos_nonneg, H0.
Qed.

Lemma round_nearest_even_nonneg m l : 0 <= m -> 0 <= round_nearest_even m l.
Proof.
  intros H. unfold round_nearest_even.
  destruct l as [|[]]; try destruct (Z.even m); lia.
Qed.

Lemma binary_round_aux_nonneg m e l :
  0 <= m -> sf_nonneg (binary_round_aux prec emax false m e l) = true.
Proof.
  intros H. unfold binary_round_aux.
  pose proof (shr_fexp_nonneg m e l H) as H1.
  destruct (shr_fexp prec emax m e l) as [mrs' e'].
  simpl in H1.
  pose proof (shr_fexp_nonneg _ e' loc_Exact
                (round_nearest_even_nonneg _ (loc_of_shr_record mrs') H1)) as H2.
  destruct (shr_fexp prec emax _ e' loc_Exact) as [mrs'' e''].
  simpl in H2.
  destruct (shr_m mrs'') as [|p|p]; [reflexivity| |lia].
  destruct (e'' <=? emax - prec); reflexivity.
Qed.

Lemma binary_normalize_nonneg m e :
  0 <= m -> sf_nonneg (binary_normalize prec emax m e false) = true.
Proof.
  intros H. destruct m as [|p|p]; [reflexivity| |lia].
  unfold binary_normalize, binary_round.
  destruct (shl_align p e _) as [mz ez].
  apply binary_round_aux_nonneg. lia.
Qed.

Lemma iter_xO_val m d : Zpos (Pos.iter xO m d) = Zpos m * 2 ^ Zpos d.
Proof.
  induction d as [|d IH] using Pos.peano_ind.
  - simpl. lia.
  - rewrite Pos.iter_succ, Pos2Z.inj_succ, Z.pow_succ_r by lia.
    rewrite Pos2Z.inj_xO, IH. lia.
Qed.

Lemma shl_align_val m e e' :
  e' <= e -> Zpos (fst (shl_align m e e')) = Zpos m * 2 ^ (e - e').
Proof.
  intros H. unfold shl_align.
  destruct (e' - e) as [|d|d] eqn:Hd; simpl.
  - replace (e - e') with 0 by lia. rewrite Z.pow_0_r. lia.
  - lia.
  - rewrite iter_xO_val. pose proof (Pos2Z.opp_pos d).
    replace (e - e') with (Zpos d) by lia. reflexivity.
Qed.

Lemma digits2_pos_bounds m :
  2 ^ (Zpos (digits2_pos m) - 1) <= Zpos m < 2 ^ Zpos (digits2_pos m).
Proof.
  induction m as [m IH|m IH|]; simpl digits2_pos.
  - rewrite Pos2Z.inj_succ, Z.pow_succ_r by lia.
    replace (Z.succ (Zpos (digits2_pos m)) - 1) with (Z.succ (Zpos (digits2_pos m) - 1)) by lia.
    rewrite Z.pow_succ_r by lia. lia.
  - rewrite Pos2Z.inj_succ, Z.pow_succ_r by lia.
    replace (Z.succ (Zpos (digits2_pos m)) - 1) with (Z.succ (Zpos (digits2_pos m) - 1)) by lia.
    rewrite Z.pow_succ_r by lia. lia.
  - simpl. lia.
Qed.

(** Among valid finite floats, a lower exponent means a lower magnitude. *)
Lemma aligned_magnitude_lt m1 e1 m2 e2 :
  bounded prec emax m1 e1 = true -> bounded prec emax m2 e2 = true ->
  e1 < e2 ->
  Zpos m1 * 2 ^ (e1 - Z.min e2 e1) <= Zpos m2 * 2 ^ (e2 - Z.min e2 e1).
Proof.
  unfold bounded, canonical_mantissa, fexp, emin, prec, emax.
  intros H1 H2 Hlt.
  apply andb_prop in H1 as [H1 _]. apply andb_prop in H2 as [H2 _].
  apply Z.eqb_eq in H1, H2.
  rewrite Z.min_r by lia.
  replace (e1 - e1) with 0 by lia. rewrite Z.pow_0_r, Z.mul_1_r.
  pose proof (digits2_pos_bounds m1) as [_ B1].
  pose proof (digits2_pos_bounds m2) as [B2 _].
  assert (D2 : Zpos (digits2_pos m2) = 53) by lia.
  assert (D1 : Zpos (digits2_pos m1) <= 53) by lia.
  rewrite D2 in B2.
  assert (Zpos m1 < 2 ^ 53).
  { eapply Z.lt_le_trans; [exact B1|]. apply Z.pow_le_mono_r; lia. }
  assert (2 ^ 1 <= 2 ^ (e2 - e1)) by (apply Z.pow_le_mono_r; lia).
  change (2 ^ (53 - 1)) with 4503599627370496 in B2.
  change (2 ^ 53) with 9007199254740992 in H.
  change (2 ^ 1) with 2 in H0.
  nia.
Qed.

Lemma aligned_difference_nonneg sx mx ex sy my ey :
  bounded prec emax mx ex = true -> bounded prec emax my ey = true ->
  SFleb (S754_finite sy my ey) (S754_finite sx mx ex) = true ->
  0 <= cond_Zopp sx (Zpos (fst (shl_align mx ex (Z.min ex ey))))
       - cond_Zopp sy (Zpos (fst (shl_align my ey (Z.min ex ey)))).
Proof.
  intros Bx By Hle.
  rewrite !shl_align_val by lia.
  assert (Px : 0 < Zpos mx * 2 ^ (ex - Z.min ex ey)).
  { apply Z.mul_pos_pos; [lia|]. apply Z.pow_pos_nonneg; lia. }
  assert (Py : 0 < Zpos my * 2 ^ (ey - Z.min ex ey)).
  { apply Z.mul_pos_pos; [lia|]. apply Z.pow_pos_nonneg; lia. }
  unfold SFleb, SFcompare in Hle.
  destruct sx, sy; cbv [cond_Zopp]; try discriminate; try lia.
  - (* both negative: the magnitude of y is the larger one *)
    destruct (Z.compare_spec ey ex) as [Heq|Hlt|Hgt]; try discriminate.
    + subst ey. rewrite Z.min_id, Z.sub_diag, Z.pow_0_r, !Z.mul_1_r.
      rewrite Pos.compare_cont_spec in Hle. simpl in Hle.
      destruct (Pos.compare_spec my mx); simpl in Hle; try discriminate; lia.
    + pose proof (aligned_magnitude_lt mx ex my ey Bx By ltac:(lia)) as H.
      rewrite (Z.min_comm ey ex) in H. lia.
  - (* both positive *)
    destruct (Z.compare_spec ey ex) as [Heq|Hlt|Hgt]; try discriminate.
    + subst ey. rewrite Z.min_id, Z.sub_diag, Z.pow_0_r, !Z.mul_1_r.
      rewrite Pos.compare_cont_spec in Hle. simpl in Hle.
      destruct (Pos.compare_spec my mx); simpl in Hle; try discriminate; lia.
    + pose proof (aligned_magnitude_lt my ey mx ex By Bx ltac:(lia)) as H. lia.
Qed.

Lemma SFsub_nonneg x y :
  valid_binary x = true -> valid_binary y = true ->
  sf_finite x = true -> sf_finite y = true ->
  SFleb y x = true ->
  sf_nonneg (SFsub prec emax x y) = true.
Proof.
  intros Vx Vy Fx Fy Hle.
  destruct x as [sx|sx| |sx mx ex], y as [sy|sy| |sy my ey]; try discriminate.
  - destruct sx, sy; reflexivity.
  - destruct sy; [reflexivity | discriminate].
  - destruct sx; [discriminate | reflexivity].
  - simpl in Vx, Vy. unfold SFsub.
    apply binary_normalize_nonneg.
    apply aligned_difference_nonneg; assumption.
Qed.

Lemma is_finite_SF x : is_finite x = true -> sf_finite (Prim2SF x) = true.
Proof.
  unfold is_finite, is_nan, is_infinity.
  rewrite !FloatAxioms.eqb_spec, FloatAxioms.abs_spec.
  change (Prim2SF infinity) with (S754_infinity false).
  destruct (Prim2SF x) as [s|s| |s m e]; simpl; try reflexivity; try discriminate.
  destruct s; discriminate.
Qed.

(** Subtracting a finite float from one that is not below it never gives a
    negative result. *)
Lemma float_sub_nonneg (t0 t1 : float) :
  is_finite t0 = true -> is_finite t1 = true ->
  PrimFloat.leb t0 t1 = true ->
  PrimFloat.leb 0 (PrimFloat.sub t1 t0) = true.
Proof.
  intros F0 F1 Hle.
  rewrite FloatAxioms.leb_spec in Hle |- *.
  rewrite FloatAxioms.sub_spec.
  change (Prim2SF 0) with (S754_zero false).
  apply sf_nonneg_leb, SFsub_nonneg;
    auto using FloatAxioms.Prim2SF_valid, is_finite_SF.
Qed.

End FloatFacts.

(** ** The wrapper *)

Section Properties.

Context (E : Env).

Implicit Types (o : options) (f : pyfunc E) (a : call_args) (w : World E)
  (l : locals) (er : ExecutionResult) (e : exc) (th : gmap string hint).

(** ** The wrapper's phases, unfolded *)

Lemma try_block_unfold o f sig th a w :
  try_block E o f sig th a w =
  match input_validation E o sig th a with
  | (errs, Some e) =>
      if is_Exception e
      then (Returns {| l_errors := errs ++ ["Execution error: " +:+ exc_str e;
                                            "Traceback: " +:+ format_exc E e];
                       l_result := VNone; l_status := "error" |}, w, [])
      else (Raises e, w, [])
  | (errs, None) =>
      match errs, fn_body f a w with
      | _ :: _, _ =>
          (Returns {| l_errors := errs; l_result := VNone; l_status := "error" |}, w, [])
      | [], (Returns v, w1, ev) =>
          match output_validation E o th v with
          | Returns None =>
              (Returns {| l_errors := []; l_result := v; l_status := "success" |},
               w1, Called (fn_name f) a :: ev)
          | Returns (Some msg) =>
              (Returns {| l_errors := [msg]; l_result := v; l_status := "error" |},
               w1, Called (fn_name f) a :: ev)
          | Raises e =>
              if is_Exception e
              then (Returns {| l_errors := ["Execution error: " +:+ exc_str e;
                                            "Traceback: " +:+ format_exc E e];
                               l_result := VNone; l_status := "error" |},
                    w1, Called (fn_name f) a :: ev)
              else (Raises e, w1, Called (fn_name f) a :: ev)
          end
      | [], (Raises e, w1, ev) =>
          if is_Exception e
          then (Returns {| l_errors := ["Execution error: " +:+ exc_str e;
                                        "Traceback: " +:+ format_exc E e];
                           l_result := VNone; l_status := "error" |},
                w1, Called (fn_name f) a :: ev)
          else (Raises e, w1, Called (fn_name f) a :: ev)
      end
  end.
Proof.
  unfold try_block, try_except, execution_handler, call, lift,
    mbind, M_bind, mret, M_ret, bind, emit, ret, raise.
  destruct (input_validation E o sig th a) as [errs [e|]].
  - destruct (is_Exception e); reflexivity.
  - destruct errs as [|m errs]; [|reflexivity].
    destruct (fn_body f a w) as [[[v|e] w1] ev]; simpl.
    + destruct (output_validation E o th v) as [[msg|]|e]; simpl;
        [| |destruct (is_Exception e); simpl]; rewrite ?app_nil_r; reflexivity.
    + destruct (is_Exception e); simpl; rewrite ?app_nil_r; reflexivity.
Qed.

Lemma monitored_unfold o f a w :
  monitored E o f a w =
  match fn_signature f with
  | Raises e => (Raises e, start_world E w, [])
  | Returns sig =>
      match fn_type_hints f with
      | Raises e => (Raises e, start_world E w, [])
      | Returns th =>
          match try_block E o f sig th a (start_world E w) with
          | (Returns l, w1, ev) =>
              (Returns (l, envelope_at E f l w w1), end_world E w1, ev)
          | (Raises e, w1, ev) => (Raises e, w1, ev)
          end
      end
  end.
Proof.
  unfold monitored, start_world, end_world, envelope_at,
    mbind, M_bind, mret, M_ret, bind, sample, lift, ret.
  destruct (time_time E w) as [t0 wa]; simpl.
  destruct (memory_rss E wa) as [m0 wb]; simpl.
  destruct (cpu_percent E wb) as [c0 wc]; simpl.
  destruct (fn_signature f) as [sig|e]; [|reflexivity].
  destruct (fn_type_hints f) as [th|e]; [|reflexivity].
  destruct (try_block E o f sig th a wc) as [[[l|e] w1] ev]; [|reflexivity].
  destruct (time_time E w1) as [t1 wd]; simpl.
  destruct (memory_rss E wd) as [m1 we]; simpl.
  destruct (cpu_percent E we) as [c1 wf]; simpl.
  destruct (now_isoformat E wf) as [now w2]; simpl.
  rewrite app_nil_r. reflexivity.
Qed.

(** What an envelope tells about the guarded block that produced it. *)
Lemma monitored_returns o f a w l er w' ev :
  monitored E o f a w = (Returns (l, er), w', ev) ->
  exists sig th w1,
    fn_signature f = Returns sig /\ fn_type_hints f = Returns th /\
    try_block E o f sig th a (start_world E w) = (Returns l, w1, ev) /\
    er = envelope_at E f l w w1 /\ w' = end_world E w1.
Proof.
  rewrite monitored_unfold.
  destruct (fn_signature f) as [sig|e]; [|discriminate].
  destruct (fn_type_hints f) as [th|e]; [|discriminate].
  destruct (try_block E o f sig th a (start_world E w)) as [[[l0|e] w1] ev0] eqn:Ht;
    [|discriminate].
  intros H. injection H as -> <- <- <-.
  exists sig, th, w1. auto.
Qed.

Lemma wrapper_unfold o f a w :
  wrapper E o f a w =
  match monitored E o f a w with
  | (Returns (l, er), w1, ev) =>
      let level := log_severity o (l_status l) in
      let message := log_message (l_status l) in
      let handed_back := returned E o (l_result l) (l_status l) er in
      if log_execution o then
        match model_dump E er with
        | Returns d =>
            let record := record_of level message d (utc_timestamp E w1) in
            if (LOG_LEVEL E <=? levelno level)%Z then
              match json_dumps E (dict_value record) with
              | Returns _ => (handed_back, w1, ev ++ [Logged level message record])
              | Raises e => (Raises e, w1, ev)
              end
            else (handed_back, w1, ev)
        | Raises e => (Raises e, w1, ev)
        end
      else (handed_back, w1, ev)
  | (Raises e, w1, ev) => (Raises e, w1, ev)
  end.
Proof.
  unfold wrapper, log_result, logger, JSONRenderer,
    mbind, M_bind, mret, M_ret, bind, emit, ret, ask, lift.
  destruct (monitored E o f a w) as [[[[l er]|e] w1] ev]; [|reflexivity].
  cbv zeta. destruct (log_execution o); simpl.
  - destruct (model_dump E er) as [d|e]; simpl; [|rewrite app_nil_r; reflexivity].
    destruct (LOG_LEVEL E <=? levelno (log_severity o (l_status l)))%Z; simpl.
    + destruct (json_dumps E _); simpl; [|rewrite app_nil_r; reflexivity].
      destruct (returned E o (l_result l) (l_status l) er);
        rewrite ?app_nil_r; reflexivity.
    + destruct (returned E o (l_result l) (l_status l) er);
        rewrite ?app_nil_r; reflexivity.
  - destruct (returned E o (l_result l) (l_status l) er);
      rewrite ?app_nil_r; reflexivity.
Qed.

(** The status of an envelope is the status the guarded block left. *)
Lemma monitored_status o f a w l er w1 ev :
  monitored E o f a w = (Returns (l, er), w1, ev) -> status er = l_status l.
Proof.
  intros H.
  destruct (monitored_returns _ _ _ _ _ _ _ _ H) as (sig & th & w0 & _ & _ & _ & -> & _).
  reflexivity.
Qed.

Lemma monitored_result o f a w l er w1 ev :
  monitored E o f a w = (Returns (l, er), w1, ev) -> result er = l_result l.
Proof.
  intros H.
  destruct (monitored_returns _ _ _ _ _ _ _ _ H) as (sig & th & w0 & _ & _ & _ & -> & _).
  reflexivity.
Qed.

(** The wrapper after the envelope. With [log_execution] on, the envelope is
    dumped, and the record is dropped, printed, or refused by the renderer;
    then the value is handed back. *)
Lemma wrapper_after_envelope o f a w l er w1 ev :
  monitored E o f a w = (Returns (l, er), w1, ev) ->
  let level := log_severity o (status er) in
  let message := log_message (status er) in
  let handed_back := returned E o (result er) (status er) er in
  wrapper E o f a w =
  if log_execution o then
    match model_dump E er with
    | Returns d =>
        let record := record_of level message d (utc_timestamp E w1) in
        if (LOG_LEVEL E <=? levelno level)%Z then
          match json_dumps E (dict_value record) with
          | Returns _ => (handed_back, w1, ev ++ [Logged level message record])
          | Raises e => (Raises e, w1, ev)
          end
        else (handed_back, w1, ev)
    | Raises e => (Raises e, w1, ev)
    end
  else (handed_back, w1, ev).
Proof.
  intros H. rewrite wrapper_unfold, H.
  rewrite (monitored_status _ _ _ _ _ _ _ _ H), (monitored_result _ _ _ _ _ _ _ _ H).
  reflexivity.
Qed.

(** ** The guarded block *)

Lemma app_singleton_not_nil {A : Type} (xs ys : list A) (y : A) :
  xs ++ y :: ys <> [].
Proof. destruct xs; discriminate. Qed.

(** Every way through the guarded block, one goal each. *)
Ltac block_cases o f sig th a w :=
  let errs := fresh "errs" in
  let e := fresh "e" in
  rewrite try_block_unfold;
  destruct (input_validation E o sig th a) as [errs [e|]];
  [ destruct (is_Exception e)
  | destruct errs as [|? ?];
    [ let v := fresh "v" in
      destruct (fn_body f a w) as [[[v|e] ?] ?];
      [ destruct (output_validation E o th v) as [[?|]|e];
        [ | | destruct (is_Exception e) ]
      | destruct (is_Exception e) ]
    | ] ].

(** The locals leave the block in one of two shapes. *)
Lemma try_block_status o f sig th a w l w1 ev :
  try_block E o f sig th a w = (Returns l, w1, ev) ->
  (l_status l = "success" /\ l_errors l = []) \/
  (l_status l = "error" /\ l_errors l <> []).
Proof.
  block_cases o f sig th a w; intros H; try discriminate H;
    injection H as <- _ _;
    first [ left; split; reflexivity
          | right; split; [reflexivity|];
            first [discriminate | apply app_singleton_not_nil] ].
Qed.

(** C1. In the envelope of every call, [status] is ["error"] exactly when
    [errors] holds a non-empty list, and ["success"] exactly when [errors] is
    absent. *)
Theorem status_error_iff_errors o f a w l er w' ev :
  monitored E o f a w = (Returns (l, er), w', ev) ->
  (status er = "error" <-> exists es, errors er = Some es /\ es <> []) /\
  (status er = "success" <-> errors er = None).
Proof.
  intros H.
  destruct (monitored_returns _ _ _ _ _ _ _ _ H) as (sig & th & w1 & _ & _ & Ht & -> & _).
  unfold envelope_at, envelope; simpl.
  destruct (try_block_status _ _ _ _ _ _ _ _ _ Ht) as [[-> Hl] | [-> Hl]].
  - rewrite Hl. split; split; try discriminate; try reflexivity.
    intros (es & Hes & _). discriminate.
  - destruct (l_errors l) as [|m ms] eqn:Hm; [contradiction|].
    split; split; try discriminate; try reflexivity.
    intros _. exists (m :: ms). split; [reflexivity|discriminate].
Qed.

(** ** Input validation *)

Lemma input_validation_off o sig th a :
  validate_input o = false -> input_validation E o sig th a = ([], None).
Proof. intros H. unfold input_validation. rewrite H. reflexivity. Qed.

Lemma input_validation_no_hints o sig a :
  input_validation E o sig ∅ a = ([], None).
Proof.
  unfold input_validation.
  rewrite bool_decide_eq_false_2 by (intros H; apply H; reflexivity).
  rewrite andb_false_r. reflexivity.
Qed.

Lemma output_validation_off o th v :
  validate_output o = false -> output_validation E o th v = Returns None.
Proof. intros H. unfold output_validation. rewrite H. reflexivity. Qed.

Lemma validate_param_unstructured th p v errs :
  has_structured_hint th p = false -> validate_param E th p v errs = (errs, None).
Proof.
  unfold has_structured_hint, validate_param.
  destruct (th !! p) as [t|]; [|reflexivity].
  destruct (structured t); [discriminate|reflexivity].
Qed.

(** A rejected argument of a structured parameter leaves its message. *)
Lemma validate_param_rejected th p v errs cls e :
  th !! p = Some (HModel cls) ->
  accept_or_coerce E cls v = Raises e -> is_ValidationError e = true ->
  validate_param E th p v errs =
    (errs ++ ["Input validation failed for " +:+ p +:+ ": " +:+ exc_str e], None).
Proof.
  intros Hp Hc He. unfold validate_param. rewrite Hp. simpl.
  rewrite Hc, He. reflexivity.
Qed.

(** Whether a round raises does not depend on the errors collected so far. *)
Lemma validate_param_raised th p v errs :
  snd (validate_param E th p v errs) = snd (validate_param E th p v []).
Proof.
  unfold validate_param.
  destruct (th !! p) as [t|]; [|reflexivity].
  destruct (structured t) as [cls|]; [|reflexivity].
  destruct (accept_or_coerce E cls v) as [|e]; [reflexivity|].
  destruct (is_ValidationError e); reflexivity.
Qed.

(** The error list only grows. *)
Lemma validate_param_grows th p v errs :
  exists extra, fst (validate_param E th p v errs) = errs ++ extra.
Proof.
  unfold validate_param.
  destruct (th !! p) as [t|]; [|exists []; simpl; symmetry; apply app_nil_r].
  destruct (structured t) as [cls|]; [|exists []; simpl; symmetry; apply app_nil_r].
  destruct (accept_or_coerce E cls v) as [|e];
    [exists []; simpl; symmetry; apply app_nil_r|].
  destruct (is_ValidationError e); simpl; eauto.
  exists []. symmetry; apply app_nil_r.
Qed.

Lemma validate_arguments_grows th args : forall errs,
  exists extra, fst (validate_arguments E th args errs) = errs ++ extra.
Proof.
  induction args as [|[p v] rest IH]; intros errs; simpl.
  - exists []. symmetry; apply app_nil_r.
  - destruct (validate_param_grows th p v errs) as [x Hx].
    destruct (validate_param E th p v errs) as [errs' [e|]]; simpl in Hx.
    + exists x. exact Hx.
    + destruct (IH errs') as [y Hy]. exists (x ++ y).
      rewrite Hy, Hx, app_assoc. reflexivity.
Qed.

(** The loop either reaches a rejected argument, and keeps its message, or
    is left before, by an argument whose own round raises. *)
Lemma validate_arguments_reaches th pre p v post cls e : forall errs,
  th !! p = Some (HModel cls) ->
  accept_or_coerce E cls v = Raises e -> is_ValidationError e = true ->
  ("Input validation failed for " +:+ p +:+ ": " +:+ exc_str e)
    ∈ fst (validate_arguments E th (pre ++ (p, v) :: post) errs)
  \/ exists q u e0, (q, u) ∈ pre /\
       snd (validate_param E th q u []) = Some e0 /\
       snd (validate_arguments E th (pre ++ (p, v) :: post) errs) = Some e0.
Proof.
  intros errs Hp Hc He. revert errs.
  induction pre as [|[q u] pre IH]; intros errs; simpl.
  - left. rewrite (validate_param_rejected _ _ _ _ _ _ Hp Hc He).
    destruct (validate_arguments_grows th post
                (errs ++ ["Input validation failed for " +:+ p +:+ ": " +:+ exc_str e]))
      as [x ->].
    rewrite !elem_of_app, list_elem_of_singleton. auto.
  - pose proof (validate_param_raised th q u errs) as Hr.
    destruct (validate_param E th q u errs) as [errs' [e0|]]; simpl in Hr.
    + right. exists q, u, e0. simpl. rewrite elem_of_cons. auto.
    + destruct (IH errs') as [Hin | (q' & u' & e0 & Hin & Hq & Hs)]; [left; exact Hin|].
      right. exists q', u', e0. rewrite elem_of_cons. auto.
Qed.

(** A round appends to the list it is given what it appends to the empty
    one. *)
Lemma validate_param_from_nil th p v errs :
  validate_param E th p v errs
  = (errs ++ fst (validate_param E th p v []), snd (validate_param E th p v [])).
Proof.
  unfold validate_param.
  destruct (th !! p) as [t|]; [|simpl; rewrite app_nil_r; reflexivity].
  destruct (structured t) as [cls|]; [|simpl; rewrite app_nil_r; reflexivity].
  destruct (accept_or_coerce E cls v) as [|e]; [simpl; rewrite app_nil_r; reflexivity|].
  destruct (is_ValidationError e); simpl; rewrite ?app_nil_r; reflexivity.
Qed.

(** A round that raises records nothing. *)
Lemma validate_param_raises_silently th p v e :
  snd (validate_param E th p v []) = Some e -> fst (validate_param E th p v []) = [].
Proof.
  unfold validate_param.
  destruct (th !! p) as [t|]; [|discriminate].
  destruct (structured t) as [cls|]; [|discriminate].
  destruct (accept_or_coerce E cls v) as [|e0]; [discriminate|].
  destruct (is_ValidationError e0); [discriminate|reflexivity].
Qed.

(** The loop is left by the first round that raises: the list holds the
    messages of the rounds before it, and no later argument is looked at. *)
Lemma validate_arguments_leaves th pre q u rest e0 : forall errs,
  (forall q' u', (q', u') ∈ pre -> snd (validate_param E th q' u' []) = None) ->
  snd (validate_param E th q u []) = Some e0 ->
  validate_arguments E th (pre ++ (q, u) :: rest) errs
  = (errs ++ flat_map (rejection E th) pre, Some e0).
Proof.
  induction pre as [|[q' u'] pre IH]; intros errs Hquiet Hq; simpl.
  - rewrite validate_param_from_nil, Hq,
      (validate_param_raises_silently _ _ _ _ Hq), !app_nil_r.
    reflexivity.
  - rewrite validate_param_from_nil.
    rewrite (Hquiet q' u') by (rewrite elem_of_cons; auto).
    rewrite IH by (try exact Hq; intros q2 u2 Hin; apply Hquiet; rewrite elem_of_cons; auto).
    unfold rejection at 2; simpl. rewrite app_assoc. reflexivity.
Qed.

(** Among arguments one of which makes its round raise, there is a first
    one. *)
Lemma first_raising_argument th args :
  (exists q u e0, (q, u) ∈ args /\ snd (validate_param E th q u []) = Some e0) ->
  exists pre q u post e0,
    args = pre ++ (q, u) :: post /\
    (forall q' u', (q', u') ∈ pre -> snd (validate_param E th q' u' []) = None) /\
    snd (validate_param E th q u []) = Some e0.
Proof.
  induction args as [|[q u] rest IH]; intros (q0 & u0 & e0 & Hin & Hq0).
  - apply elem_of_nil in Hin. contradiction.
  - destruct (snd (validate_param E th q u [])) as [e1|] eqn:Hq.
    + exists [], q, u, rest, e1. split; [reflexivity|]. split; [|exact Hq].
      intros q' u' Hin'. apply elem_of_nil in Hin'. contradiction.
    + apply elem_of_cons in Hin. destruct Hin as [Heq | Hin].
      * injection Heq as -> ->. rewrite Hq in Hq0. discriminate.
      * destruct IH as (pre & q1 & u1 & post & e1 & -> & Hquiet & Hq1); [eauto|].
        exists ((q, u) :: pre), q1, u1, post, e1.
        split; [reflexivity|]. split; [|exact Hq1].
        intros q' u' Hin'. apply elem_of_cons in Hin'.
        destruct Hin' as [Heq | Hin']; [injection Heq as -> ->; exact Hq | eauto].
Qed.

(** What leaves the loop was raised by the round of one of the arguments. *)
Lemma validate_arguments_raised_by th args : forall errs errs' e0,
  validate_arguments E th args errs = (errs', Some e0) ->
  exists q u, (q, u) ∈ args /\ snd (validate_param E th q u []) = Some e0.
Proof.
  induction args as [|[q u] rest IH]; intros errs errs' e0; simpl; [discriminate|].
  pose proof (validate_param_raised th q u errs) as Hr.
  destruct (validate_param E th q u errs) as [errs1 [e1|]]; simpl in Hr.
  - intros H; injection H as _ <-. exists q, u. rewrite elem_of_cons. auto.
  - intros H. destruct (IH _ _ _ H) as (q' & u' & Hin & Hq).
    exists q', u'. rewrite elem_of_cons. auto.
Qed.

(** C3 (as amended). With [validate_input] on, when the arguments bind and
    one of them, declared with a structured-record type, is rejected by the
    validator, the envelope has status ["error"] and the underlying function
    is not entered. [errors] holds the entry
    ["Input validation failed for <param>: <details>"] provided no argument
    bound before it makes its own round raise something else than a
    validation error. Otherwise the loop was left at the first argument that
    does so, before the rejected one was looked at: [errors] is the messages
    of the arguments rejected before that one, followed by the entry
    ["Input validation error: <what that round raised>"]. And the call does
    yield an envelope whenever what the rounds raise are [Exception]s, the
    class the handler of line 105 names. *)
Theorem rejected_argument_blocks_call o f a w sig th pre p v post cls e :
  validate_input o = true ->
  fn_signature f = Returns sig -> fn_type_hints f = Returns th ->
  sig a = Returns (pre ++ (p, v) :: post) ->
  th !! p = Some (HModel cls) ->
  accept_or_coerce E cls v = Raises e -> is_ValidationError e = true ->
  (forall l er w' ev,
     monitored E o f a w = (Returns (l, er), w', ev) ->
     status er = "error" /\ ev = [] /\
     exists es, errors er = Some es /\
       ((forall q u, (q, u) ∈ pre -> snd (validate_param E th q u []) = None) ->
        ("Input validation failed for " +:+ p +:+ ": " +:+ exc_str e) ∈ es) /\
       ((exists q u e0, (q, u) ∈ pre /\ snd (validate_param E th q u []) = Some e0) ->
        exists pre1 q u pre2 e0,
          pre = pre1 ++ (q, u) :: pre2 /\
          (forall q' u', (q', u') ∈ pre1 -> snd (validate_param E th q' u' []) = None) /\
          snd (validate_param E th q u []) = Some e0 /\
          es = flat_map (rejection E th) pre1
               ++ ["Input validation error: " +:+ exc_str e0])) /\
  ((forall q u e0, (q, u) ∈ pre ++ (p, v) :: post ->
      snd (validate_param E th q u []) = Some e0 -> is_Exception e0 = true) ->
   exists l er,
     monitored E o f a w = (Returns (l, er), end_world E (start_world E w), [])).
Proof.
  intros Hvi Hsig Hth Hbind Hp Hc He.
  assert (Hne : th <> ∅) by (intros ->; rewrite lookup_empty in Hp; discriminate).
  pose proof (validate_arguments_reaches th pre p v post cls e [] Hp Hc He) as Hreach.
  assert (Hin : input_validation E o sig th a
                = match validate_arguments E th (pre ++ (p, v) :: post) [] with
                  | (errs, Some e0) =>
                      if is_Exception e0
                      then (errs ++ ["Input validation error: " +:+ exc_str e0], None)
                      else (errs, Some e0)
                  | (errs, None) => (errs, None)
                  end).
  { unfold input_validation. rewrite Hvi, (bool_decide_eq_true_2 _ Hne), Hbind.
    simpl. destruct (validate_arguments E th (pre ++ (p, v) :: post) []) as [errs [e0|]];
      reflexivity. }
  split.
  - intros l er w' ev H.
    destruct (monitored_returns _ _ _ _ _ _ _ _ H)
      as (sig' & th' & w1 & Hs & Ht & Hb & -> & _).
    rewrite Hsig in Hs; injection Hs as <-. rewrite Hth in Ht; injection Ht as <-.
    rewrite try_block_unfold, Hin in Hb.
    assert (Hleave :
      (exists q u e0, (q, u) ∈ pre /\ snd (validate_param E th q u []) = Some e0) ->
      exists pre1 q u pre2 e0,
        pre = pre1 ++ (q, u) :: pre2 /\
        (forall q' u', (q', u') ∈ pre1 -> snd (validate_param E th q' u' []) = None) /\
        snd (validate_param E th q u []) = Some e0 /\
        validate_arguments E th (pre ++ (p, v) :: post) []
        = (flat_map (rejection E th) pre1, Some e0)).
    { intros Hex.
      destruct (first_raising_argument th pre Hex)
        as (pre1 & q & u & pre2 & e0 & -> & Hquiet & Hq).
      exists pre1, q, u, pre2, e0.
      split; [reflexivity|]. split; [exact Hquiet|]. split; [exact Hq|].
      rewrite <- app_assoc. simpl.
      exact (validate_arguments_leaves th pre1 q u (pre2 ++ (p, v) :: post) e0 []
               Hquiet Hq). }
    destruct (validate_arguments E th (pre ++ (p, v) :: post) []) as [errs [e0|]];
      simpl in Hreach.
    + (* the loop was left by [e0] *)
      destruct (is_Exception e0) eqn:Hex; [|rewrite Hex in Hb; discriminate Hb].
      assert (Hn : errs ++ ["Input validation error: " +:+ exc_str e0] <> [])
        by apply app_singleton_not_nil.
      destruct (errs ++ ["Input validation error: " +:+ exc_str e0]) as [|m ms] eqn:Hm;
        [contradiction|].
      injection Hb as <- <- <-. unfold envelope_at, envelope; simpl.
      split; [reflexivity|]. split; [reflexivity|].
      exists (m :: ms). split; [reflexivity|]. rewrite <- Hm. split.
      * intros Hquiet.
        destruct Hreach as [Hfound | (q & u & e1 & Hfound & Hq & _)].
        -- rewrite elem_of_app. auto.
        -- rewrite (Hquiet _ _ Hfound) in Hq. discriminate.
      * intros Hsome.
        destruct (Hleave Hsome) as (pre1 & q & u & pre2 & e1 & Hpre & Hquiet & Hq & Hv).
        injection Hv as -> ->. exists pre1, q, u, pre2, e1. auto.
    + (* the loop ran to its end *)
      destruct Hreach as [Hfound | (q & u & e1 & _ & _ & Hs)]; [|discriminate].
      destruct errs as [|m ms]; [apply elem_of_nil in Hfound; contradiction|].
      injection Hb as <- <- <-. unfold envelope_at, envelope; simpl.
      split; [reflexivity|]. split; [reflexivity|].
      exists (m :: ms). split; [reflexivity|]. split; [auto|].
      intros Hsome.
      destruct (Hleave Hsome) as (pre1 & q & u & pre2 & e1 & _ & _ & _ & Hv).
      discriminate Hv.
  - intros Hexc.
    rewrite monitored_unfold, Hsig, Hth, try_block_unfold, Hin.
    destruct (validate_arguments E th (pre ++ (p, v) :: post) []) as [errs [e0|]] eqn:Hv;
      simpl in Hreach.
    + destruct (validate_arguments_raised_by _ _ _ _ _ Hv) as (q & u & Hfound & Hq).
      rewrite (Hexc _ _ _ Hfound Hq).
      assert (Hn : errs ++ ["Input validation error: " +:+ exc_str e0] <> [])
        by apply app_singleton_not_nil.
      destruct (errs ++ ["Input validation error: " +:+ exc_str e0]) as [|m ms];
        [contradiction|]. eauto.
    + destruct Hreach as [Hfound | (q & u & e1 & _ & _ & Hs)]; [|discriminate].
      destruct errs as [|m ms]; [apply elem_of_nil in Hfound; contradiction|]. eauto.
Qed.

(** C9. With [validate_input] on, an argument whose declared type is not a
    structured-record shape goes through its round of the loop untouched:
    whatever its value and whatever the validator, the round changes nothing
    and raises nothing, the loop gives what it gives on the structured
    parameters alone, and a call without any structured parameter records no
    input error. *)
Theorem unstructured_arguments_skipped th :
  (forall p v errs,
      has_structured_hint th p = false ->
      validate_param E th p v errs = (errs, None)) /\
  (forall args errs,
      validate_arguments E th args errs =
      validate_arguments E th
        (List.filter (fun pv => has_structured_hint th (fst pv)) args) errs) /\
  (forall o sig a bound,
      sig a = Returns bound ->
      (forall p v, (p, v) ∈ bound -> has_structured_hint th p = false) ->
      input_validation E o sig th a = ([], None)).
Proof.
  assert (Hloop : forall args errs,
      validate_arguments E th args errs =
      validate_arguments E th
        (List.filter (fun pv => has_structured_hint th (fst pv)) args) errs).
  { induction args as [|[p v] rest IH]; intros errs; simpl; [reflexivity|].
    destruct (has_structured_hint th p) eqn:Hs; simpl.
    - destruct (validate_param E th p v errs) as [errs' [e|]]; [reflexivity|apply IH].
    - rewrite validate_param_unstructured by exact Hs. apply IH. }
  split; [exact (validate_param_unstructured th)|]. split; [exact Hloop|].
  intros o sig a bound Hbind Hall. unfold input_validation.
  destruct (validate_input o && bool_decide (th <> ∅)); [|reflexivity].
  rewrite Hbind, Hloop.
  replace (List.filter (fun pv => has_structured_hint th (fst pv)) bound) with (@nil (string * value)).
  - reflexivity.
  - symmetry. clear Hbind. induction bound as [|[p v] rest IH]; simpl; [reflexivity|].
    rewrite (Hall p v) by (rewrite elem_of_cons; auto).
    apply IH. intros q u Hin. apply (Hall q u). rewrite elem_of_cons. auto.
Qed.

(** C10. When [get_type_hints] gives the empty dictionary, [validate_input]
    validates nothing: the underlying function is entered with the arguments
    as given, and no envelope holds an entry that starts with
    ["Input validation"]. *)
Theorem no_type_hints_no_validation o f a w sig :
  fn_signature f = Returns sig -> fn_type_hints f = Returns ∅ ->
  input_validation E o sig ∅ a = ([], None) /\
  (exists out w1 ev1,
      fn_body f a (start_world E w) = (out, w1, ev1) /\
      snd (monitored E o f a w) = Called (fn_name f) a :: ev1) /\
  (forall l er w' ev es m,
      monitored E o f a w = (Returns (l, er), w', ev) ->
      errors er = Some es -> m ∈ es ->
      String.prefix "Input validation" m = false).
Proof.
  intros Hsig Hth. split; [apply input_validation_no_hints|].
  rewrite monitored_unfold, Hsig, Hth, try_block_unfold, input_validation_no_hints.
  destruct (fn_body f a (start_world E w)) as [[[v|e] w1] ev1] eqn:Hf; split.
  - exists (Returns v), w1, ev1. split; [reflexivity|].
    destruct (output_validation E o ∅ v) as [[msg|]|e]; try reflexivity.
    destruct (is_Exception e); reflexivity.
  - intros l er w' ev es m. unfold output_validation.
    rewrite lookup_empty. destruct (validate_output o);
      intros H; injection H as <- <- _ _; discriminate.
  - exists (Raises e), w1, ev1. split; [reflexivity|].
    destruct (is_Exception e); reflexivity.
  - intros l er w' ev es m. destruct (is_Exception e); [|discriminate].
    intros H; injection H as <- <- _ _. unfold envelope_at, envelope; simpl.
    intros Hes; injection Hes as <-.
    rewrite !elem_of_cons, elem_of_nil. intros [-> | [-> | []]]; reflexivity.
Qed.

(** ** Execution and output validation *)


(** C5 (as amended). When the function returns [v], [validate_output] is on,
    the declared return type is a structured-record shape, and the validator
    rejects [v] with a validation error, the envelope has status ["error"],
    [errors] is the single entry ["Output validation failed: <details>"], and
    [result] is still [v]. *)
Theorem rejected_output_keeps_result o f a w sig th v w1 ev1 cls e :
  fn_signature f = Returns sig -> fn_type_hints f = Returns th ->
  input_validation E o sig th a = ([], None) ->
  fn_body f a (start_world E w) = (Returns v, w1, ev1) ->
  validate_output o = true ->
  th !! "return" = Some (HModel cls) ->
  accept_or_coerce E cls v = Raises e -> is_ValidationError e = true ->
  exists l er,
    monitored E o f a w
    = (Returns (l, er), end_world E w1, Called (fn_name f) a :: ev1) /\
    status er = "error" /\
    errors er = Some ["Output validation failed: " +:+ exc_str e] /\
    result er = v.
Proof.
  intros Hsig Hth Hin Hf Hvo Hret Hc He.
  rewrite monitored_unfold, Hsig, Hth, try_block_unfold, Hin, Hf.
  unfold output_validation. rewrite Hvo, Hret. simpl. rewrite Hc, He.
  eexists _, _. split; [reflexivity|]. repeat split.
Qed.

(** ** After the envelope: logging and the value handed back *)

(** A successful block returned what the function returned. *)
Lemma try_block_success o f sig th a w l w1 ev :
  try_block E o f sig th a w = (Returns l, w1, ev) ->
  l_status l = "success" ->
  exists ev0, fn_body f a w = (Returns (l_result l), w1, ev0).
Proof.
  block_cases o f sig th a w; intros H Hs; try discriminate H;
    injection H as <- <- _; first [discriminate Hs | eauto].
Qed.

(** The world the guarded block leaves: the one it was entered in when the
    function is not entered, and otherwise the one the function leaves. *)
Lemma try_block_world o f sig th a w l w1 ev :
  try_block E o f sig th a w = (Returns l, w1, ev) ->
  (ev = [] /\ w1 = w) \/
  (exists out ev1, fn_body f a w = (out, w1, ev1) /\ ev = Called (fn_name f) a :: ev1).
Proof.
  rewrite try_block_unfold.
  destruct (input_validation E o sig th a) as [errs [e|]].
  - destruct (is_Exception e); [|discriminate].
    intros H; injection H as _ <- <-. auto.
  - destruct errs as [|m errs]; [|intros H; injection H as _ <- <-; auto].
    destruct (fn_body f a w) as [[[v|e] w2] ev2] eqn:Hf.
    + destruct (output_validation E o th v) as [[msg|]|e];
        [| |destruct (is_Exception e); [|discriminate]];
        intros H; injection H as _ <- <-; right; eauto.
    + destruct (is_Exception e); [|discriminate].
      intros H; injection H as _ <- <-. right; eauto.
Qed.

(** The dump of an envelope is its eight fields, with the dump of [result];
    it raises what the dump of [result] raises. *)
Lemma model_dump_serialized er dumped :
  serialize E (result er) = Returns dumped ->
  model_dump E er
  = Returns [("result", dumped);
             ("status", VStr (status er));
             ("errors", match errors er with
                        | None => VNone
                        | Some es => VList (map VStr es)
                        end);
             ("execution_time", VFloat (execution_time er));
             ("memory_usage",
              VDict (map (fun '(k, n) => (VStr k, VInt n)) (memory_usage er)));
             ("cpu_usage", VFloat (cpu_usage er));
             ("timestamp", VStr (timestamp er));
             ("function_name", VStr (function_name er))].
Proof. intros H. unfold model_dump. rewrite H. reflexivity. Qed.

Lemma model_dump_raises er e :
  serialize E (result er) = Raises e -> model_dump E er = Raises e.
Proof. intros H. unfold model_dump. rewrite H. reflexivity. Qed.

(** The record of an envelope: its fields with the stamp of the logger in
    place of the [timestamp] of the envelope, then the message and the name
    of the method. *)
Lemma record_of_envelope level message er d stamp :
  model_dump E er = Returns d ->
  exists dumped,
    serialize E (result er) = Returns dumped /\
    record_of level message d stamp
    = [("result", dumped);
       ("status", VStr (status er));
       ("errors", match errors er with
                  | None => VNone
                  | Some es => VList (map VStr es)
                  end);
       ("execution_time", VFloat (execution_time er));
       ("memory_usage",
        VDict (map (fun '(k, n) => (VStr k, VInt n)) (memory_usage er)));
       ("cpu_usage", VFloat (cpu_usage er));
       ("timestamp", VStr stamp);
       ("function_name", VStr (function_name er));
       ("event", VStr message);
       ("level", VStr (method_name level))].
Proof.
  unfold model_dump. destruct (serialize E (result er)) as [dumped|e]; simpl;
    [|discriminate].
  intros H; injection H as <-. exists dumped. split; reflexivity.
Qed.

(** What is handed back when the envelope dumps. *)
Lemma returned_dumped o er d :
  model_dump E er = Returns d ->
  returned E o (result er) (status er) er
  = Returns (if return_raw_result o && String.eqb (status er) "success"
             then result er else dict_value d).
Proof.
  intros H. unfold returned. rewrite H.
  destruct (return_raw_result o && String.eqb (status er) "success"); reflexivity.
Qed.

(** What the dump raises leaves the wrapper wherever the dump is called:
    for the record when [log_execution] is on, and for the dictionary handed
    back. *)
Lemma wrapper_dump_raises o f a w l er w1 ev e :
  monitored E o f a w = (Returns (l, er), w1, ev) ->
  serialize E (result er) = Raises e ->
  log_execution o = true \/ return_raw_result o = false \/ status er <> "success" ->
  wrapper E o f a w = (Raises e, w1, ev).
Proof.
  intros H Hser Hcalled.
  rewrite (wrapper_after_envelope _ _ _ _ _ _ _ _ H). cbv zeta.
  rewrite (model_dump_raises _ _ Hser).
  destruct (log_execution o); [reflexivity|].
  unfold returned. rewrite (model_dump_raises _ _ Hser).
  destruct Hcalled as [Hon | [-> | Hs]]; [discriminate Hon | reflexivity |].
  apply String.eqb_neq in Hs. rewrite Hs, andb_false_r. reflexivity.
Qed.

(** What the renderer raises on a record to be printed leaves the wrapper. *)
Lemma wrapper_renderer_raises o f a w l er w1 ev d e :
  monitored E o f a w = (Returns (l, er), w1, ev) ->
  model_dump E er = Returns d ->
  log_execution o = true ->
  (LOG_LEVEL E <= levelno (log_severity o (status er)))%Z ->
  json_dumps E (dict_value (record_of (log_severity o (status er))
                              (log_message (status er)) d (utc_timestamp E w1)))
  = Raises e ->
  wrapper E o f a w = (Raises e, w1, ev).
Proof.
  intros H Hd Hon Hle Hr. apply Z.leb_le in Hle.
  rewrite (wrapper_after_envelope _ _ _ _ _ _ _ _ H). cbv zeta.
  rewrite Hon, Hd, Hle, Hr. reflexivity.
Qed.

(** Otherwise the wrapper returns. *)
Lemma wrapper_returns o f a w l er w1 ev :
  monitored E o f a w = (Returns (l, er), w1, ev) ->
  (log_execution o = false /\
   (return_raw_result o = true /\ status er = "success" \/
    exists d, model_dump E er = Returns d)) \/
  (exists d,
     model_dump E er = Returns d /\
     ((levelno (log_severity o (status er)) < LOG_LEVEL E)%Z \/
      json_dumps E (dict_value (record_of (log_severity o (status er))
                                  (log_message (status er)) d (utc_timestamp E w1)))
      = Returns tt)) ->
  exists v ev',
    returned E o (result er) (status er) er = Returns v /\
    wrapper E o f a w = (Returns v, w1, ev').
Proof.
  intros H Hok.
  rewrite (wrapper_after_envelope _ _ _ _ _ _ _ _ H). cbv zeta.
  destruct Hok as [[Hoff Hback] | (d & Hd & Hgo)].
  - rewrite Hoff. destruct Hback as [[Hraw Hs] | [d Hd]].
    + unfold returned. rewrite Hraw, Hs. simpl. eauto.
    + rewrite (returned_dumped o _ _ Hd). eauto.
  - rewrite Hd, (returned_dumped o _ _ Hd).
    destruct (log_execution o); [|eauto].
    destruct (LOG_LEVEL E <=? levelno (log_severity o (status er)))%Z eqn:Hle;
      [|eauto].
    destruct Hgo as [Hlt | Hr]; [apply Z.leb_le in Hle; lia|].
    rewrite Hr. eauto.
Qed.


(** C6 (as amended). Whenever an envelope is built, its dump succeeds and
    the logging step lets the call go on ([log_execution] is off, or the
    record is under the threshold, or the record renders), the call returns:
    the value the underlying function returned when [return_raw_result] is
    on and the status is ["success"], and in every other case the dictionary
    of the eight fields of the envelope. With [log_execution] off the bare
    value is returned without any dump. When the dump raises where it is
    called, or the renderer raises on a record to be printed, the call raises
    the same and the caller receives nothing. *)
Theorem returned_value_shape o f a w l er w1 ev :
  monitored E o f a w = (Returns (l, er), w1, ev) ->
  let level := log_severity o (status er) in
  let fields := fun dumped : value =>
    [("result", dumped);
     ("status", VStr (status er));
     ("errors", match errors er with
                | None => VNone
                | Some es => VList (map VStr es)
                end);
     ("execution_time", VFloat (execution_time er));
     ("memory_usage",
      VDict (map (fun '(k, n) => (VStr k, VInt n)) (memory_usage er)));
     ("cpu_usage", VFloat (cpu_usage er));
     ("timestamp", VStr (timestamp er));
     ("function_name", VStr (function_name er))] in
  let rendering := fun dumped : value =>
    json_dumps E (dict_value (record_of level (log_message (status er))
                                (fields dumped) (utc_timestamp E w1))) in
  (return_raw_result o = true -> status er = "success" ->
   log_execution o = false \/
   (exists dumped, serialize E (result er) = Returns dumped /\
                   ((levelno level < LOG_LEVEL E)%Z \/ rendering dumped = Returns tt)) ->
   exists ev' w0 ev0,
     wrapper E o f a w = (Returns (result er), w1, ev') /\
     fn_body f a (start_world E w) = (Returns (result er), w0, ev0)) /\
  (return_raw_result o = false \/ status er <> "success" ->
   forall dumped, serialize E (result er) = Returns dumped ->
     log_execution o = false \/ (levelno level < LOG_LEVEL E)%Z \/
     rendering dumped = Returns tt ->
     exists ev',
       wrapper E o f a w
       = (Returns
            (VDict [(VStr "result", dumped);
                    (VStr "status", VStr (status er));
                    (VStr "errors", match errors er with
                                    | None => VNone
                                    | Some es => VList (map VStr es)
                                    end);
                    (VStr "execution_time", VFloat (execution_time er));
                    (VStr "memory_usage",
                     VDict (map (fun '(k, n) => (VStr k, VInt n)) (memory_usage er)));
                    (VStr "cpu_usage", VFloat (cpu_usage er));
                    (VStr "timestamp", VStr (timestamp er));
                    (VStr "function_name", VStr (function_name er))]),
          w1, ev')) /\
  (forall e, serialize E (result er) = Raises e ->
     log_execution o = true \/ return_raw_result o = false \/ status er <> "success" ->
     wrapper E o f a w = (Raises e, w1, ev)) /\
  (forall dumped e, serialize E (result er) = Returns dumped ->
     log_execution o = true -> (LOG_LEVEL E <= levelno level)%Z ->
     rendering dumped = Raises e ->
     wrapper E o f a w = (Raises e, w1, ev)).
Proof.
  intros H. cbv zeta. split; [|split; [|split]].
  - (* the bare value *)
    intros Hraw Hs Hok.
    assert (Hf : exists w0 ev0,
               fn_body f a (start_world E w) = (Returns (result er), w0, ev0)).
    { destruct (monitored_returns _ _ _ _ _ _ _ _ H) as (sig & th & w0 & _ & _ & Hb & _ & _).
      pose proof Hs as Hl. rewrite (monitored_status _ _ _ _ _ _ _ _ H) in Hl.
      destruct (try_block_success _ _ _ _ _ _ _ _ _ Hb Hl) as [ev0 Hf].
      rewrite (monitored_result _ _ _ _ _ _ _ _ H). eauto. }
    destruct Hf as (w0 & ev0 & Hf).
    destruct (wrapper_returns _ _ _ _ _ _ _ _ H) as (v & ev' & Hback & Hw).
    { destruct Hok as [Hoff | (dumped & Hser & Hgo)]; [left; auto|].
      right. eexists. split; [exact (model_dump_serialized _ _ Hser) | exact Hgo]. }
    unfold returned in Hback. rewrite Hraw, Hs in Hback. injection Hback as <-.
    eauto.
  - (* the envelope *)
    intros Hnot dumped Hser Hgo.
    pose proof (model_dump_serialized _ _ Hser) as Hd.
    destruct (wrapper_returns _ _ _ _ _ _ _ _ H) as (v & ev' & Hback & Hw).
    { destruct Hgo as [Hoff | Hgo]; [left; eauto|].
      right. eexists. split; [exact Hd | exact Hgo]. }
    rewrite (returned_dumped o _ _ Hd) in Hback.
    assert (Hcase : return_raw_result o && String.eqb (status er) "success" = false).
    { destruct Hnot as [-> | Hs]; [reflexivity|].
      apply String.eqb_neq in Hs. rewrite Hs. apply andb_false_r. }
    rewrite Hcase in Hback. injection Hback as <-. eauto.
  - (* the dump raises *)
    intros e. apply (wrapper_dump_raises _ _ _ _ _ _ _ _ _ H).
  - (* the renderer raises *)
    intros dumped e Hser.
    apply (wrapper_renderer_raises _ _ _ _ _ _ _ _ _ _ H), model_dump_serialized, Hser.
Qed.

(** C7 (as amended). With [log_execution] on, the wrapper dumps the envelope
    and calls the logger once per call, with the fields of the envelope: at
    [ERROR] when the status is ["error"], whatever [log_level] is, and on
    success at [DEBUG] when [log_level] upper-cases to ["DEBUG"] and at
    [INFO] otherwise. Under [LOG_LEVEL] the call prints nothing and the
    wrapper returns; otherwise one record is printed when it renders, and
    when the renderer raises nothing is printed and the wrapper raises the
    same. So exactly one record is printed whenever [LOG_LEVEL] is at most
    10, the default, and the record renders. When the dump raises, the logger
    is not called and the wrapper raises the same. *)
Theorem one_logger_call_per_invocation o f a w l er w1 ev :
  log_execution o = true ->
  monitored E o f a w = (Returns (l, er), w1, ev) ->
  exists sev,
    (status er = "error" -> sev = ERROR) /\
    (status er = "success" ->
       sev = if String.eqb (upper (log_level o)) "DEBUG" then DEBUG else INFO) /\
    (status er = "error" \/ status er = "success") /\
    (forall dumped, serialize E (result er) = Returns dumped ->
       let message := log_message (status er) in
       let fields :=
         [("result", dumped);
          ("status", VStr (status er));
          ("errors", match errors er with
                     | None => VNone
                     | Some es => VList (map VStr es)
                     end);
          ("execution_time", VFloat (execution_time er));
          ("memory_usage",
           VDict (map (fun '(k, n) => (VStr k, VInt n)) (memory_usage er)));
          ("cpu_usage", VFloat (cpu_usage er));
          ("timestamp", VStr (timestamp er));
          ("function_name", VStr (function_name er))] in
       let record := record_of sev message fields (utc_timestamp E w1) in
       snd (wrapper E o f a w) = ev ++ snd (logger E sev message fields w1) /\
       ((levelno sev < LOG_LEVEL E)%Z ->
        exists v, wrapper E o f a w = (Returns v, w1, ev)) /\
       ((LOG_LEVEL E <= levelno sev)%Z ->
        json_dumps E (dict_value record) = Returns tt ->
        exists v,
          wrapper E o f a w = (Returns v, w1, ev ++ [Logged sev message record])) /\
       ((LOG_LEVEL E <= levelno sev)%Z ->
        forall e, json_dumps E (dict_value record) = Raises e ->
          wrapper E o f a w = (Raises e, w1, ev)) /\
       ((LOG_LEVEL E <= 10)%Z ->
        json_dumps E (dict_value record) = Returns tt ->
        exists v,
          wrapper E o f a w = (Returns v, w1, ev ++ [Logged sev message record]))) /\
    (forall e, serialize E (result er) = Raises e ->
       wrapper E o f a w = (Raises e, w1, ev)).
Proof.
  intros Hlog H.
  pose proof (wrapper_after_envelope _ _ _ _ _ _ _ _ H) as Hw. cbv zeta in Hw.
  rewrite Hlog in Hw.
  exists (log_severity o (status er)).
  split; [intros ->; reflexivity|].
  split; [intros ->; reflexivity|].
  split.
  { destruct (monitored_returns _ _ _ _ _ _ _ _ H) as (sig & th & w0 & _ & _ & Hb & _ & _).
    rewrite (monitored_status _ _ _ _ _ _ _ _ H).
    destruct (try_block_status _ _ _ _ _ _ _ _ _ Hb) as [[-> _]|[-> _]]; auto. }
  split; [|intros e Hser; rewrite (model_dump_raises _ _ Hser) in Hw; exact Hw].
  intros dumped Hser. pose proof (model_dump_serialized _ _ Hser) as Hd.
  cbv zeta. rewrite Hd, (returned_dumped o _ _ Hd) in Hw.
  set (fields := [("result", dumped); _; _; _; _; _; _; _]) in *.
  assert (Hprinted : (LOG_LEVEL E <= levelno (log_severity o (status er)))%Z ->
    json_dumps E (dict_value (record_of (log_severity o (status er))
                                (log_message (status er)) fields (utc_timestamp E w1)))
    = Returns tt ->
    exists v,
      wrapper E o f a w
      = (Returns v, w1,
         ev ++ [Logged (log_severity o (status er)) (log_message (status er))
                  (record_of (log_severity o (status er))
                     (log_message (status er)) fields (utc_timestamp E w1))])).
  { intros Hle Hr. apply Z.leb_le in Hle. rewrite Hle, Hr in Hw. eauto. }
  split.
  { rewrite Hw. unfold logger, JSONRenderer, mbind, M_bind, mret, M_ret, bind,
      emit, ret, ask, lift.
    destruct (LOG_LEVEL E <=? levelno (log_severity o (status er)))%Z; simpl;
      [|rewrite app_nil_r; reflexivity].
    destruct (json_dumps E _); simpl; rewrite ?app_nil_r; reflexivity. }
  split; [|split; [exact Hprinted|split]].
  - intros Hlt. apply Z.leb_gt in Hlt. rewrite Hlt in Hw. eauto.
  - intros Hle e Hr. apply Z.leb_le in Hle. rewrite Hle, Hr in Hw. exact Hw.
  - intros Hle. apply Hprinted. unfold log_severity.
    destruct (String.eqb (status er) "success");
      [destruct (String.eqb (upper (log_level o)) "DEBUG")|]; simpl; lia.
Qed.

(** ** Metrics *)

(** C8 (as amended). In every envelope, [memory_usage] holds [before],
    [after], [peak] equal to [after] and [delta] equal to [after - before],
    where [before] is read on entry and [after] in the world the guarded
    block leaves: the world the function left, or the world of entry when the
    function was not entered. [execution_time] is the reading of the clock in
    that world minus the reading on entry, and it is not negative whenever
    both readings are finite and the second is not below the first. *)
Theorem envelope_metrics o f a w l er w' ev :
  monitored E o f a w = (Returns (l, er), w', ev) ->
  exists w1,
    ((ev = [] /\ w1 = start_world E w) \/
     (exists out ev1, fn_body f a (start_world E w) = (out, w1, ev1) /\
                      ev = Called (fn_name f) a :: ev1)) /\
    w' = end_world E w1 /\
    let start_time := fst (time_time E w) in
    let end_time := fst (time_time E w1) in
    let before := fst (memory_rss E (snd (time_time E w))) in
    let after := fst (memory_rss E (snd (time_time E w1))) in
    memory_usage er = [("before", before); ("after", after); ("peak", after);
                       ("delta", (after - before)%Z)] /\
    execution_time er = PrimFloat.sub end_time start_time /\
    (is_finite start_time = true -> is_finite end_time = true ->
     PrimFloat.leb start_time end_time = true ->
     PrimFloat.leb 0 (execution_time er) = true).
Proof.
  intros H.
  destruct (monitored_returns _ _ _ _ _ _ _ _ H) as (sig & th & w1 & _ & _ & Hb & -> & ->).
  exists w1. split; [exact (try_block_world _ _ _ _ _ _ _ _ _ Hb)|].
  split; [reflexivity|].
  unfold envelope_at, envelope; simpl.
  split; [reflexivity|]. split; [reflexivity|]. apply float_sub_nonneg.
Qed.

(** ** Wrapping twice *)

(** With validation and logging off and [return_raw_result] on, a call that
    the function answers with [v] is answered with [v]. *)
Lemma wrapper_raw_passthrough o f a w sig th v w1 ev1 :
  validate_input o = false -> validate_output o = false ->
  log_execution o = false -> return_raw_result o = true ->
  fn_signature f = Returns sig -> fn_type_hints f = Returns th ->
  fn_body f a (start_world E w) = (Returns v, w1, ev1) ->
  wrapper E o f a w = (Returns v, end_world E w1, Called (fn_name f) a :: ev1).
Proof.
  intros Hvi Hvo Hlog Hraw Hsig Hth Hf.
  rewrite wrapper_unfold, monitored_unfold, Hsig, Hth, try_block_unfold.
  rewrite (input_validation_off _ _ _ _ Hvi), Hf, (output_validation_off _ _ _ Hvo).
  cbv zeta. unfold returned. rewrite Hlog, Hraw. reflexivity.
Qed.

(** C2 (as amended). Wrapping [f] twice with [validate_input],
    [validate_output] and [log_execution] off and [return_raw_result] on
    gives, for a function whose signature and type hints can be read and for
    arguments on which [f] returns, the value [f] returns. *)
Theorem double_wrap_raw_result o f a w sig th v w1 ev1 :
  validate_input o = false -> validate_output o = false ->
  log_execution o = false -> return_raw_result o = true ->
  fn_signature f = Returns sig -> fn_type_hints f = Returns th ->
  fn_body f a (start_world E (start_world E w)) = (Returns v, w1, ev1) ->
  fn_body (monitor_function E o (monitor_function E o f)) a w
  = (Returns v, end_world E (end_world E w1),
     Called (fn_name f) a :: Called (fn_name f) a :: ev1).
Proof.
  intros Hvi Hvo Hlog Hraw Hsig Hth Hf.
  change (fn_body (monitor_function E o (monitor_function E o f)) a w)
    with (wrapper E o (monitor_function E o f) a w).
  apply (wrapper_raw_passthrough o (monitor_function E o f) a w sig th); auto.
  change (fn_body (monitor_function E o f) a (start_world E w))
    with (wrapper E o f a (start_world E w)).
  apply (wrapper_raw_passthrough o f a _ sig th); auto.
Qed.

(** ** The wrapper does not raise on ordinary failures *)


Section OrdinaryFailures.

Hypothesis construct_raises_Exception :
  forall cls kw e, model_construct E cls kw = Raises e -> is_Exception e = true.





End OrdinaryFailures.

(** * Further properties of the wrapper *)

(** ** Coercion: what reaches the validator *)

Lemma unpack_keywords_strings kw :
  unpack_keywords (map (fun '(k, x) => (VStr k, x)) kw) = Returns kw.
Proof.
  induction kw as [|[k x] rest IH]; simpl; [reflexivity|].
  rewrite IH. reflexivity.
Qed.

(** X9. Keyword unpacking gives back the items of a dictionary built from
    string keys, so an instance with a [__dict__] and a dictionary with
    string keys reach the validator with exactly their items, in order; and
    a value that is accepted or coerced without error is either an instance
    of the class or one whose items the validator took. *)
Theorem coerce_passes_fields cls classes kw :
  unpack_keywords (map (fun '(k, x) => (VStr k, x)) kw) = Returns kw /\
  coerce E cls (VObject classes kw) = model_construct E cls kw /\
  coerce E cls (dict_value kw) = model_construct E cls kw /\
  (forall v, accept_or_coerce E cls v = Returns tt ->
     isinstance v cls = true \/
     exists items kw', mapping_of v = Returns items /\
                       unpack_keywords items = Returns kw' /\
                       model_construct E cls kw' = Returns tt).
Proof.
  pose proof (unpack_keywords_strings kw) as H.
  split; [exact H|].
  split; [unfold coerce; simpl; rewrite H; reflexivity|].
  split; [unfold coerce, dict_value; simpl; rewrite H; reflexivity|].
  intros v. unfold accept_or_coerce, coerce.
  destruct (isinstance v cls); simpl; [auto|].
  destruct (mapping_of v) as [items|e0]; simpl; [|discriminate].
  destruct (unpack_keywords items) as [kw'|e0] eqn:Hk; simpl; [|discriminate].
  intros Hc. right. exists items, kw'. auto.
Qed.

Lemma unpack_keywords_refuses items :
  forallb is_string_key items = false ->
  unpack_keywords items = Raises TypeError_keywords.
Proof.
  induction items as [|[k x] rest IH]; simpl; [discriminate|].
  destruct k; try reflexivity.
  simpl. intros H. rewrite (IH H). reflexivity.
Qed.

(** X8. A value without fields (a number, a string, a list, [None]) that is
    handed to a structured parameter raises [AttributeError], and a
    dictionary with a key that is no string raises [TypeError]; in both cases
    the round leaves the loop with that exception, records nothing, and the
    validator has no say. *)
Theorem coerce_edge_cases th p cls errs :
  th !! p = Some (HModel cls) ->
  (forall v, has_fields v = false ->
     accept_or_coerce E cls v = Raises (AttributeError_dict v) /\
     validate_param E th p v errs = (errs, Some (AttributeError_dict v))) /\
  (forall items, forallb is_string_key items = false ->
     accept_or_coerce E cls (VDict items) = Raises TypeError_keywords /\
     validate_param E th p (VDict items) errs = (errs, Some TypeError_keywords)).
Proof.
  intros Hp. split.
  - intros v Hv.
    assert (Ha : accept_or_coerce E cls v = Raises (AttributeError_dict v))
      by (destruct v; try discriminate; reflexivity).
    split; [exact Ha|].
    unfold validate_param. rewrite Hp. simpl. rewrite Ha. reflexivity.
  - intros items Hk.
    assert (Ha : accept_or_coerce E cls (VDict items) = Raises TypeError_keywords).
    { unfold accept_or_coerce, coerce; simpl.
      rewrite (unpack_keywords_refuses _ Hk). reflexivity. }
    split; [exact Ha|].
    unfold validate_param. rewrite Hp. simpl. rewrite Ha. reflexivity.
Qed.

(** ** Input validation: the loop as a whole *)

(** X6. When no round raises anything else than a validation error, the loop
    runs over every bound argument and the error list is the messages of the
    rejected ones, one each, in binding order: several malformed arguments
    are all reported. *)
Theorem every_rejection_reported th args errs :
  (forall q u, (q, u) ∈ args -> snd (validate_param E th q u []) = None) ->
  validate_arguments E th args errs
  = (errs ++ flat_map (rejection E th) args, None).
Proof.
  revert errs. induction args as [|[q u] rest IH]; intros errs Hall; simpl.
  - rewrite app_nil_r. reflexivity.
  - rewrite validate_param_from_nil.
    rewrite (Hall q u) by (rewrite elem_of_cons; auto).
    rewrite IH by (intros q' u' Hin; apply Hall; rewrite elem_of_cons; auto).
    unfold rejection at 2; simpl. rewrite app_assoc. reflexivity.
Qed.

(** X7. An argument that already is an instance of its declared model class
    is accepted as it is: when every bound argument of a structured parameter
    is such an instance, no input error is recorded whatever the validator
    would say of their fields. *)
Theorem instances_are_not_revalidated o sig th a bound :
  sig a = Returns bound ->
  (forall p v cls, (p, v) ∈ bound -> th !! p = Some (HModel cls) ->
     isinstance v cls = true) ->
  input_validation E o sig th a = ([], None).
Proof.
  intros Hbind Hall. unfold input_validation.
  destruct (validate_input o && bool_decide (th <> ∅)); [|reflexivity].
  rewrite Hbind.
  assert (Hloop : forall errs, validate_arguments E th bound errs = (errs, None)).
  { clear Hbind. induction bound as [|[p v] rest IH]; intros errs; simpl; [reflexivity|].
    assert (Hp : validate_param E th p v errs = (errs, None)).
    { unfold validate_param.
      destruct (th !! p) as [t|] eqn:Ht; [|reflexivity].
      destruct t as [cls|c|r]; try reflexivity. simpl.
      unfold accept_or_coerce.
      rewrite (Hall p v cls) by (rewrite ?elem_of_cons; auto). reflexivity. }
    rewrite Hp. apply IH. intros q u cls Hin. apply Hall. rewrite elem_of_cons. auto. }
  rewrite Hloop. reflexivity.
Qed.

(** X5. With [validate_input] on and some type hint declared, arguments that
    do not bind to the signature are reported as the single entry
    ["Input validation error: <details>"]; the function is not entered and
    the envelope has status ["error"] and no result. *)
Theorem binding_failure_reported o f a w sig th e :
  validate_input o = true -> th <> ∅ ->
  fn_signature f = Returns sig -> fn_type_hints f = Returns th ->
  sig a = Raises e -> is_Exception e = true ->
  exists l er,
    monitored E o f a w
    = (Returns (l, er), end_world E (start_world E w), []) /\
    status er = "error" /\
    errors er = Some ["Input validation error: " +:+ exc_str e] /\
    result er = VNone.
Proof.
  intros Hvi Hne Hsig Hth Hbind He.
  rewrite monitored_unfold, Hsig, Hth, try_block_unfold.
  unfold input_validation.
  rewrite Hvi, (bool_decide_eq_true_2 _ Hne), Hbind. simpl. rewrite He. simpl.
  eexists _, _. split; [reflexivity|]. repeat split.
Qed.

(** ** The shapes an envelope can take *)






(** ** What a call leaves behind *)

(** X10. Whatever the call ends with, the wrapper enters the underlying
    function at most once, with the arguments exactly as it received them and
    in the world that follows the three readings taken on entry; the events
    of a call are that entry with the function's own events, if any, followed
    by at most one printed record. *)
Theorem at_most_one_entry_one_record o f a w :
  exists entered records,
    snd (wrapper E o f a w) = entered ++ records /\
    (entered = [] \/
     entered = Called (fn_name f) a :: snd (fn_body f a (start_world E w))) /\
    (records = [] \/
     exists level message fields, records = [Logged level message fields]).
Proof.
  rewrite wrapper_unfold.
  assert (Hm : snd (monitored E o f a w) = [] \/
               snd (monitored E o f a w)
               = Called (fn_name f) a :: snd (fn_body f a (start_world E w))).
  { rewrite monitored_unfold.
    destruct (fn_signature f) as [sig|e]; [|auto].
    destruct (fn_type_hints f) as [th|e]; [|auto].
    rewrite try_block_unfold.
    destruct (input_validation E o sig th a) as [errs [e|]].
    - destruct (is_Exception e); auto.
    - destruct errs as [|m errs]; [|auto].
      destruct (fn_body f a (start_world E w)) as [[[v|e] w2] ev2]; simpl.
      + destruct (output_validation E o th v) as [[msg|]|e]; auto.
        destruct (is_Exception e); auto.
      + destruct (is_Exception e); auto. }
  assert (Hnone : forall ev : list event,
    snd (monitored E o f a w) = ev ->
    exists entered records,
      ev = entered ++ records /\
      (entered = [] \/
       entered = Called (fn_name f) a :: snd (fn_body f a (start_world E w))) /\
      (records = [] \/
       exists level message fields, records = [Logged level message fields])).
  { intros ev <-. exists (snd (monitored E o f a w)), []. rewrite app_nil_r. auto. }
  destruct (monitored E o f a w) as [[[[l er]|e] w1] ev]; simpl in *;
    [|apply Hnone; reflexivity].
  destruct (log_execution o); [|apply Hnone; reflexivity].
  destruct (model_dump E er) as [d|e]; [|apply Hnone; reflexivity].
  destruct (LOG_LEVEL E <=? _)%Z; [|apply Hnone; reflexivity].
  destruct (json_dumps E _); [|apply Hnone; reflexivity].
  eexists ev, _. split; [reflexivity|]. split; [exact Hm|]. eauto.
Qed.

(** X11. The options act where they are tested and nowhere else. The
    envelope, the world and the events up to the envelope depend on the
    options only through [validate_input] and [validate_output]. When two
    settings also agree on [return_raw_result], two calls that both return
    hand back the same value and leave the same world, and the call with
    [log_execution] off returns whenever the other does: [log_execution] and
    [log_level] decide what is printed and whether the logging step raises,
    and nothing else. *)
Theorem options_act_locally o o' f a w :
  validate_input o = validate_input o' ->
  validate_output o = validate_output o' ->
  monitored E o f a w = monitored E o' f a w /\
  (return_raw_result o = return_raw_result o' ->
   (forall v v' w1 w1' ev ev',
      wrapper E o f a w = (Returns v, w1, ev) ->
      wrapper E o' f a w = (Returns v', w1', ev') ->
      v = v' /\ w1 = w1') /\
   (log_execution o' = false ->
    forall v w1 ev,
      wrapper E o f a w = (Returns v, w1, ev) ->
      exists ev', wrapper E o' f a w = (Returns v, w1, ev'))).
Proof.
  intros Hvi Hvo.
  assert (Hm : monitored E o f a w = monitored E o' f a w).
  { rewrite !monitored_unfold.
    destruct (fn_signature f) as [sig|e]; [|reflexivity].
    destruct (fn_type_hints f) as [th|e]; [|reflexivity].
    rewrite !try_block_unfold.
    unfold input_validation, output_validation. rewrite Hvi, Hvo. reflexivity. }
  split; [exact Hm|].
  intros Hraw.
  assert (Hret : forall p v w1 ev,
    wrapper E p f a w = (Returns v, w1, ev) ->
    exists l er ev0,
      monitored E p f a w = (Returns (l, er), w1, ev0) /\
      returned E p (l_result l) (l_status l) er = Returns v).
  { intros p v w1 ev. rewrite wrapper_unfold.
    destruct (monitored E p f a w) as [[[[l er]|e] w2] ev2]; [|discriminate].
    cbv zeta. destruct (log_execution p).
    - destruct (model_dump E er) as [d|e]; [|discriminate].
      destruct (LOG_LEVEL E <=? _)%Z.
      + destruct (json_dumps E _); [|discriminate].
        intros H; injection H as Hv <- _. eauto.
      + intros H; injection H as Hv <- _. eauto.
    - intros H; injection H as Hv <- _. eauto. }
  assert (Hsame : forall l er, returned E o (l_result l) (l_status l) er
                               = returned E o' (l_result l) (l_status l) er).
  { intros l er. unfold returned. rewrite Hraw. reflexivity. }
  split.
  - intros v v' w1 w1' ev ev' Hw Hw'.
    destruct (Hret _ _ _ _ Hw) as (l & er & ev0 & H & Hv).
    destruct (Hret _ _ _ _ Hw') as (l' & er' & ev0' & H' & Hv').
    rewrite Hm, H' in H. injection H as <- <- <- _.
    rewrite Hsame, Hv' in Hv. injection Hv as <-. auto.
  - intros Hlog v w1 ev Hw.
    destruct (Hret _ _ _ _ Hw) as (l & er & ev0 & H & Hv).
    rewrite Hm in H. rewrite wrapper_unfold, H. cbv zeta.
    rewrite Hlog, <- Hsame, Hv. eauto.
Qed.

(** ** Stacking the decorator *)

(** X13. A second layer of the decorator validates what the first layer hands
    back. When the inner layer returns its envelope (its [return_raw_result]
    is off, the dump succeeds and the logging step does not raise) and the
    function declares a structured return type, the outer layer, with
    [validate_output] on, coerces the inner envelope's dictionary: if the
    validator rejects those eight fields, the outer envelope has status
    ["error"] with an ["Output validation failed: ..."] entry and the inner
    dictionary as its result, whatever the inner status was. *)
Theorem outer_layer_validates_inner_envelope
    o1 o2 f a w sig th cls e l1 er1 w1 ev1 d1 v1 ev1' :
  return_raw_result o1 = false ->
  validate_output o2 = true ->
  fn_signature f = Returns sig -> fn_type_hints f = Returns th ->
  th !! "return" = Some (HModel cls) ->
  input_validation E o2 sig th a = ([], None) ->
  monitored E o1 f a (start_world E w) = (Returns (l1, er1), w1, ev1) ->
  model_dump E er1 = Returns d1 ->
  wrapper E o1 f a (start_world E w) = (Returns v1, w1, ev1') ->
  model_construct E cls d1 = Raises e ->
  is_ValidationError e = true ->
  exists l2 er2 ev2,
    monitored E o2 (monitor_function E o1 f) a w
    = (Returns (l2, er2), end_world E w1, Called (fn_name f) a :: ev2) /\
    status er2 = "error" /\
    errors er2 = Some ["Output validation failed: " +:+ exc_str e] /\
    result er2 = dict_value d1.
Proof.
  intros Hraw Hvo Hsig Hth Hret Hin Hinner Hd Hreturns Hc He.
  assert (Hco : accept_or_coerce E cls (dict_value d1) = Raises e).
  { unfold accept_or_coerce, coerce, dict_value.
    cbn [isinstance negb mapping_of outcome_bind].
    rewrite unpack_keywords_strings. exact Hc. }
  assert (Hv1 : v1 = dict_value d1).
  { rewrite wrapper_unfold, Hinner in Hreturns. cbv zeta in Hreturns.
    unfold returned in Hreturns. rewrite Hraw, Hd in Hreturns.
    cbn [andb outcome_bind] in Hreturns.
    destruct (log_execution o1).
    - destruct (LOG_LEVEL E <=? _)%Z.
      + destruct (json_dumps E _); [|discriminate].
        injection Hreturns as <- _. reflexivity.
      + injection Hreturns as <- _. reflexivity.
    - injection Hreturns as <- _. reflexivity. }
  subst v1.
  rewrite monitored_unfold.
  change (fn_signature (monitor_function E o1 f)) with (fn_signature f).
  change (fn_type_hints (monitor_function E o1 f)) with (fn_type_hints f).
  rewrite Hsig, Hth, try_block_unfold, Hin.
  change (fn_body (monitor_function E o1 f) a (start_world E w))
    with (wrapper E o1 f a (start_world E w)).
  rewrite Hreturns.
  unfold output_validation. rewrite Hvo, Hret.
  cbn [structured is_type issubclass_BaseModel andb]. rewrite Hco, He.
  eexists _, _, _. split; [reflexivity|]. repeat split.
Qed.


(** ** The processor reading *)

Lemma SFcompare_swap x y :
  SFcompare y x = match SFcompare x y with
                  | Some c => Some (CompOpp c)
                  | None => None
                  end.
Proof.
  destruct x as [sx|sx| |sx mx ex], y as [sy|sy| |sy my ey];
    try destruct sx; try destruct sy; try reflexivity; simpl.
  all: pose proof (Pos.compare_cont_antisym mx my Eq) as H; simpl in H.
  all: rewrite (Z.compare_antisym ex ey); destruct (ex ?= ey)%Z; simpl;
    rewrite <- ?H, ?CompOpp_involutive; reflexivity.
Qed.

Lemma SFcompare_defined x y :
  SFeqb x x = true -> SFeqb y y = true -> SFcompare x y <> None.
Proof.
  destruct x as [sx|sx| |sx mx ex], y as [sy|sy| |sy my ey];
    simpl; try discriminate; intros _ _; destruct sx; discriminate.
Qed.

(** [max(a, b)] is one of its arguments: the first unless the second is
    greater, and not below either when neither is a NaN. *)
Lemma float_max_bounds (a b : float) :
  (PrimFloat.ltb a b = false -> float_max a b = a) /\
  (PrimFloat.ltb a b = true -> float_max a b = b) /\
  (is_nan a = false -> is_nan b = false ->
   PrimFloat.leb a (float_max a b) = true /\ PrimFloat.leb b (float_max a b) = true).
Proof.
  unfold float_max.
  split; [intros ->; reflexivity|]. split; [intros ->; reflexivity|].
  unfold is_nan. rewrite !negb_false_iff, !FloatAxioms.eqb_spec. intros Ha Hb.
  assert (Haa : SFleb (Prim2SF a) (Prim2SF a) = true).
  { unfold SFeqb in Ha. unfold SFleb.
    destruct (SFcompare (Prim2SF a) (Prim2SF a)) as [[]|]; try discriminate; reflexivity. }
  assert (Hbb : SFleb (Prim2SF b) (Prim2SF b) = true).
  { unfold SFeqb in Hb. unfold SFleb.
    destruct (SFcompare (Prim2SF b) (Prim2SF b)) as [[]|]; try discriminate; reflexivity. }
  pose proof (SFcompare_defined _ _ Ha Hb) as Hdef.
  pose proof (SFcompare_swap (Prim2SF a) (Prim2SF b)) as Hswap.
  destruct (PrimFloat.ltb a b) eqn:Hlt;
    rewrite FloatAxioms.ltb_spec in Hlt; rewrite !FloatAxioms.leb_spec;
    unfold SFltb in Hlt; unfold SFleb at 1 2; 
    destruct (SFcompare (Prim2SF a) (Prim2SF b)) as [[]|];
    try discriminate; try contradiction; rewrite ?Hswap; simpl; auto.
Qed.

(** X4. [cpu_usage] is one of the two processor readings: the one taken on
    entry unless the one taken after the call, in the world the guarded block
    leaves and after the clock and the memory have been read there, is
    greater; and it is not below either reading when neither is a NaN. *)
Theorem cpu_usage_is_larger_reading o f a w l er w' ev :
  monitored E o f a w = (Returns (l, er), w', ev) ->
  exists w1,
    ((ev = [] /\ w1 = start_world E w) \/
     (exists out ev1, fn_body f a (start_world E w) = (out, w1, ev1) /\
                      ev = Called (fn_name f) a :: ev1)) /\
    let cpu_before := fst (cpu_percent E (snd (memory_rss E (snd (time_time E w))))) in
    let cpu_after := fst (cpu_percent E (snd (memory_rss E (snd (time_time E w1))))) in
    (PrimFloat.ltb cpu_before cpu_after = false -> cpu_usage er = cpu_before) /\
    (PrimFloat.ltb cpu_before cpu_after = true -> cpu_usage er = cpu_after) /\
    (is_nan cpu_before = false -> is_nan cpu_after = false ->
     PrimFloat.leb cpu_before (cpu_usage er) = true /\
     PrimFloat.leb cpu_after (cpu_usage er) = true).
Proof.
  intros H.
  destruct (monitored_returns _ _ _ _ _ _ _ _ H) as (sig & th & w1 & _ & _ & Hb & -> & _).
  exists w1. split; [exact (try_block_world _ _ _ _ _ _ _ _ _ Hb)|].
  unfold envelope_at, envelope; simpl. apply float_max_bounds.
Qed.

(** A call whose bound arguments all have unstructured declared types
    records no input error. *)
Lemma input_validation_unstructured o sig th a bound :
  sig a = Returns bound ->
  (forall p v, (p, v) ∈ bound -> has_structured_hint th p = false) ->
  input_validation E o sig th a = ([], None).
Proof.
  intros Hbind Hall. unfold input_validation.
  destruct (validate_input o && bool_decide (th <> ∅)); [|reflexivity].
  rewrite Hbind.
  assert (Hloop : forall errs, validate_arguments E th bound errs = (errs, None)).
  { clear Hbind. induction bound as [|[p v] rest IH]; intros errs; simpl; [reflexivity|].
    rewrite validate_param_unstructured by (apply (Hall p v); rewrite elem_of_cons; auto).
    apply IH. intros q u Hin. apply (Hall q u). rewrite elem_of_cons. auto. }
  rewrite Hloop. reflexivity.
Qed.

End Properties.

(** * Instances on the sample process *)

Import Sample.

(** The envelope of [create_user(invalid_user)]: status ["error"], one entry
    in [errors]. *)
Lemma status_error_iff_errors_witness :
  exists l er w' ev,
    monitored verbose default_options (create_user verbose)
      (positionally [invalid_user]) 0%nat = (Returns (l, er), w', ev) /\
    (status er = "error" <-> exists es, errors er = Some es /\ es <> []) /\
    (status er = "success" <-> errors er = None).
Proof.
  eexists _, _, _, _. split; [reflexivity|].
  eapply (status_error_iff_errors verbose default_options (create_user verbose)
            (positionally [invalid_user]) 0%nat).
  reflexivity.
Defined.

(** C2, as stated, fails twice over. With the options the claim names,
    [return_raw_result] keeps its default and the call returns a dictionary,
    not the 7 the function returns; and even with [return_raw_result] on, a
    function whose annotations cannot be resolved returns 7 when called
    directly while the wrapped call raises. *)
Lemma double_wrap_default_returns_envelope :
  fst (fst (fn_body (constant verbose (VInt 7)) (positionally [])
              (start_world verbose (start_world verbose 0%nat))))
  = Returns (VInt 7) /\
  fst (fst (fn_body (monitor_function verbose quiet
                       (monitor_function verbose quiet (constant verbose (VInt 7))))
              (positionally []) 0%nat))
  <> Returns (VInt 7) /\
  (exists d,
      fst (fst (fn_body (monitor_function verbose quiet
                           (monitor_function verbose quiet (constant verbose (VInt 7))))
                  (positionally []) 0%nat))
      = Returns (VDict d)) /\
  (forall w, fst (fst (fn_body (unresolved verbose (VInt 7)) (positionally []) w))
             = Returns (VInt 7)) /\
  fst (fst (fn_body (monitor_function verbose quiet_raw
                       (monitor_function verbose quiet_raw (unresolved verbose (VInt 7))))
              (positionally []) 0%nat))
  = Raises {| exc_kind_of := KException; exc_str := "name 'Undefined' is not defined" |}.
Proof.
  split; [reflexivity|].
  split; [vm_compute; discriminate|].
  split; [eexists; vm_compute; reflexivity|].
  split; [reflexivity|].
  vm_compute. reflexivity.
Qed.

(** With [return_raw_result] on, the twice-wrapped constant function returns
    its 7, after fourteen readings and two entries. *)
Lemma double_wrap_raw_result_witness :
  fn_body (monitor_function verbose quiet_raw
             (monitor_function verbose quiet_raw (constant verbose (VInt 7))))
    (positionally []) 0%nat
  = (Returns (VInt 7), 14%nat,
     [Called "constant" (positionally []); Called "constant" (positionally [])]).
Proof.
  eapply (double_wrap_raw_result verbose quiet_raw (constant verbose (VInt 7))
            (positionally []) 0%nat); reflexivity.
Defined.

(** C3, as stated, fails on [second_user(5, invalid_user)]: the second
    argument is a dictionary the validator rejects, yet [errors] holds no
    entry for it, because the round of the first argument left the loop. *)
Lemma earlier_argument_hides_rejection :
  (exists e, accept_or_coerce verbose "UserInput" invalid_user = Raises e /\
             is_ValidationError e = true) /\
  exists l er w' ev,
    monitored verbose default_options (second_user verbose)
      (positionally [VInt 5; invalid_user]) 0%nat = (Returns (l, er), w', ev) /\
    status er = "error" /\
    errors er = Some ["Input validation error: 'int' object has no attribute '__dict__'"].
Proof.
  split.
  - eexists. split; [vm_compute; reflexivity | reflexivity].
  - eexists _, _, _, _. split; [vm_compute; reflexivity|].
    split; reflexivity.
Qed.

(** [create_user(invalid_user)], the call of line 83 of [main.py]: the
    function is not entered and the rejection is recorded. *)
Lemma rejected_argument_blocks_call_witness :
  exists l er,
    monitored verbose default_options (create_user verbose)
      (positionally [invalid_user]) 0%nat = (Returns (l, er), 7%nat, []) /\
    status er = "error" /\
    exists es, errors er = Some es /\
      ("Input validation failed for user_data: validation errors for UserInput: age: Input of the wrong type")
        ∈ es.
Proof.
  destruct (rejected_argument_blocks_call verbose default_options (create_user verbose)
              (positionally [invalid_user]) 0%nat _ _ [] "user_data" invalid_user []
              "UserInput"
              {| exc_kind_of := KValidationError;
                 exc_str := "validation errors for UserInput: age: Input of the wrong type" |}
              eq_refl eq_refl eq_refl eq_refl eq_refl eq_refl eq_refl)
    as [Hall Hex].
  destruct Hex as (l & er & H).
  { intros q u e0. simpl. rewrite elem_of_cons, elem_of_nil.
    intros [Heq | []]. injection Heq as -> ->. discriminate. }
  exists l, er. split; [exact H|].
  destruct (Hall _ _ _ _ H) as (Hs & _ & es & Hes & Hquiet & _).
  split; [exact Hs|]. exists es. split; [exact Hes|].
  apply Hquiet. intros q u Hin. apply elem_of_nil in Hin. contradiction.
Defined.


(** C5, as stated, fails on a function declared to return a [UserOutput]
    that returns 5: the value is not an instance and cannot be coerced, but
    the envelope records an execution error and drops the value. *)
Lemma uncoercible_output_discards_result :
  fst (fst (fn_body (declared_user verbose (VInt 5)) (positionally [])
              (start_world verbose 0%nat)))
  = Returns (VInt 5) /\
  accept_or_coerce verbose "UserOutput" (VInt 5) = Raises (AttributeError_dict (VInt 5)) /\
  exists l er w' ev,
    monitored verbose default_options (declared_user verbose (VInt 5))
      (positionally []) 0%nat = (Returns (l, er), w', ev) /\
    status er = "error" /\
    result er = VNone /\
    errors er = Some ["Execution error: 'int' object has no attribute '__dict__'";
                      "Traceback: Traceback (most recent call last): 'int' object has no attribute '__dict__'"].
Proof.
  split; [reflexivity|]. split; [reflexivity|].
  eexists _, _, _, _. split; [vm_compute; reflexivity|].
  repeat split.
Qed.

(** A function declared to return a [UserOutput] that returns a dictionary
    with a mistyped [id] and nothing else. *)
Lemma rejected_output_keeps_result_witness :
  exists l er,
    monitored verbose default_options
      (declared_user verbose (VDict [(VStr "id", VStr "none")]))
      (positionally []) 0%nat
    = (Returns (l, er), end_world verbose 3%nat,
       Called "declared_user" (positionally []) :: []) /\
    status er = "error" /\
    errors er
    = Some ["Output validation failed: " +:+
            "validation errors for UserOutput: id: Input of the wrong type; name: Field required; age: Field required; email: Field required; created_at: Field required"] /\
    result er = VDict [(VStr "id", VStr "none")].
Proof.
  eapply (rejected_output_keeps_result verbose default_options
            (declared_user verbose (VDict [(VStr "id", VStr "none")]))
            (positionally []) 0%nat _ _ _ _ _ "UserOutput"
            {| exc_kind_of := KValidationError;
               exc_str := "validation errors for UserOutput: id: Input of the wrong type; name: Field required; age: Field required; email: Field required; created_at: Field required" |});
    reflexivity.
Defined.

(** C6, as stated, fails on a function that returns a dictionary with an
    instance as its key: the envelope is built, with status ["success"], but
    the renderer refuses the record and the call raises its [TypeError]; the
    caller receives neither the envelope nor, with [return_raw_result] on,
    the value. *)
Lemma unrendered_result_is_not_returned :
  (exists l er w1 ev,
      monitored verbose default_options (constant verbose keyed_by_object)
        (positionally []) 0%nat = (Returns (l, er), w1, ev) /\
      status er = "success" /\ result er = keyed_by_object) /\
  fst (fst (wrapper verbose default_options (constant verbose keyed_by_object)
              (positionally []) 0%nat))
  = Raises {| exc_kind_of := KException;
              exc_str := "keys must be str, int, float, bool or None, not Key" |} /\
  fst (fst (wrapper verbose
              {| validate_input := true; validate_output := true;
                 log_execution := true; log_level := "INFO";
                 return_raw_result := true |}
              (constant verbose keyed_by_object) (positionally []) 0%nat))
  = Raises {| exc_kind_of := KException;
              exc_str := "keys must be str, int, float, bool or None, not Key" |}.
Proof.
  split; [eexists _, _, _, _; split; [reflexivity|split; reflexivity]|].
  split; vm_compute; reflexivity.
Qed.

(** [create_user(john)] with the default options: the record renders and the
    envelope comes back as a dictionary, with the user as a dictionary under
    [result]. *)
Lemma returned_value_shape_witness :
  exists l er w1 ev ev',
    monitored verbose default_options (create_user verbose)
      (positionally [john]) 0%nat = (Returns (l, er), w1, ev) /\
    wrapper verbose default_options (create_user verbose) (positionally [john]) 0%nat
    = (Returns
         (VDict [(VStr "result",
                  VDict [(VStr "id", VInt 12345); (VStr "name", VStr "John Doe");
                         (VStr "age", VInt 30); (VStr "email", VStr "john@example.com");
                         (VStr "created_at", VStr "2025-01-01T00:00:00")]);
                 (VStr "status", VStr "success");
                 (VStr "errors", VNone);
                 (VStr "execution_time", VFloat (execution_time er));
                 (VStr "memory_usage",
                  VDict [(VStr "before", VInt 4096); (VStr "after", VInt 20480);
                         (VStr "peak", VInt 20480); (VStr "delta", VInt 16384)]);
                 (VStr "cpu_usage", VFloat (cpu_usage er));
                 (VStr "timestamp", VStr "2025-01-01T00:00:00");
                 (VStr "function_name", VStr "create_user")]),
       w1, ev').
Proof.
  eexists _, _, _, _.
  assert (H : monitored verbose default_options (create_user verbose)
                (positionally [john]) 0%nat = (Returns (_, _), _, _)) by reflexivity.
  destruct (returned_value_shape verbose _ _ _ _ _ _ _ _ H) as (_ & Henvelope & _ & _).
  destruct (Henvelope (or_introl eq_refl) _ eq_refl (or_intror (or_intror eq_refl)))
    as (ev' & Hw).
  exists ev'. split; [exact H | exact Hw].
Defined.

(** C7, as stated, fails when the threshold is [INFO] and [log_level] is
    ["DEBUG"]: [create_user(john)] succeeds and no record is printed. *)
Lemma debug_record_dropped_under_threshold :
  log_execution debug_options = true /\
  exists v w',
    wrapper filtered debug_options (create_user filtered) (positionally [john]) 0%nat
    = (Returns v, w', [Called "create_user" (positionally [john])]).
Proof.
  split; [reflexivity|]. eexists _, _. vm_compute. reflexivity.
Qed.

(** [create_user(john)] with [log_level] DEBUG and the default threshold:
    one record, at [DEBUG], which carries the stamp of the logger. *)
Lemma one_logger_call_per_invocation_witness :
  exists l er w1 ev v fields,
    monitored verbose debug_options (create_user verbose)
      (positionally [john]) 0%nat = (Returns (l, er), w1, ev) /\
    wrapper verbose debug_options (create_user verbose) (positionally [john]) 0%nat
    = (Returns v, w1, ev ++ [Logged DEBUG "Function executed successfully" fields]) /\
    Sample.field "timestamp" fields = Some (VStr "2025-01-01T00:00:00Z") /\
    Sample.field "level" fields = Some (VStr "debug").
Proof.
  eexists _, _, _, _.
  assert (H : monitored verbose debug_options (create_user verbose)
                (positionally [john]) 0%nat = (Returns (_, _), _, _)) by reflexivity.
  destruct (one_logger_call_per_invocation verbose debug_options _ _ _ _ _ _ _ eq_refl H)
    as (sev & _ & Hsev & _ & Hcall & _).
  rewrite (Hsev eq_refl) in Hcall.
  destruct (Hcall _ eq_refl) as (_ & _ & _ & _ & Hone).
  destruct Hone as [v Hw]; [vm_compute; discriminate | reflexivity |].
  eexists v, _. split; [exact H|]. split; [exact Hw|]. split; reflexivity.
Defined.

(** C8, as stated, fails when the clock is set back during the call: the
    readings are 10 and then 5, and [execution_time] is negative. *)
Lemma clock_set_back_negative_time :
  exists l er w' ev,
    monitored drifting quiet (constant drifting (VInt 7)) (positionally []) 0%nat
    = (Returns (l, er), w', ev) /\
    execution_time er = (-5)%float /\
    PrimFloat.ltb (execution_time er) 0 = true.
Proof.
  eexists _, _, _, _. split; [vm_compute; reflexivity|].
  split; reflexivity.
Qed.

(** The metrics of [create_user(john)] on the steady clock: the function
    takes one reading, so the clock is read at 0 and at 4 and the memory at 1
    and at 5. *)
Lemma envelope_metrics_witness :
  exists l er w' ev,
    monitored verbose default_options (create_user verbose)
      (positionally [john]) 0%nat = (Returns (l, er), w', ev) /\
    memory_usage er = [("before", 4096%Z); ("after", 20480%Z); ("peak", 20480%Z);
                       ("delta", 16384%Z)] /\
    execution_time er = PrimFloat.sub (steady 4) (steady 0) /\
    PrimFloat.leb 0 (execution_time er) = true.
Proof.
  eexists _, _, _, _.
  assert (H : monitored verbose default_options (create_user verbose)
                (positionally [john]) 0%nat = (Returns (_, _), _, _)) by reflexivity.
  split; [exact H|].
  destruct (envelope_metrics verbose _ _ _ _ _ _ _ _ H)
    as (w1 & Hw1 & _ & Hmem & Htime & Hpos).
  assert (Hw : w1 = 4%nat).
  { destruct Hw1 as [[Hev _] | (out & ev1 & Hf & _)];
      [discriminate Hev | injection Hf as _ <- _; reflexivity]. }
  subst w1. split; [exact Hmem|]. split; [exact Htime|].
  apply Hpos; reflexivity.
Defined.

(** A function without annotations is entered whatever it is given. *)
Lemma no_type_hints_no_validation_witness :
  input_validation verbose default_options
    (fun a => Returns (map (fun x => ("args", x)) (positional a))) ∅
    (positionally [VInt 1; VStr "two"]) = ([], None) /\
  snd (monitored verbose default_options (constant verbose (VInt 7))
         (positionally [VInt 1; VStr "two"]) 0%nat)
  = [Called "constant" (positionally [VInt 1; VStr "two"])].
Proof.
  destruct (no_type_hints_no_validation verbose default_options (constant verbose (VInt 7))
              (positionally [VInt 1; VStr "two"]) 0%nat _ eq_refl eq_refl)
    as (Hin & (out & w1 & ev1 & Hf & Hev) & _).
  split; [exact Hin|].
  rewrite Hev. injection Hf as _ _ <-. reflexivity.
Defined.


(** * The functions and the configuration of [main.py] *)

Lemma environ_switch_on (environ : gmap string string) (key : string) :
  Main.truthy (Main.environ_get environ key (VBool true)) = false
  <-> environ !! key = Some "".
Proof.
  unfold Main.environ_get. destruct (environ !! key) as [s|]; simpl.
  - rewrite negb_false_iff, String.eqb_eq. split; [intros ->; reflexivity|].
    intros H; injection H as ->; reflexivity.
  - split; discriminate.
Qed.

Lemma environ_switch_off (environ : gmap string string) (key : string) :
  Main.truthy (Main.environ_get environ key (VBool false)) = true
  <-> exists s, environ !! key = Some s /\ s <> "".
Proof.
  unfold Main.environ_get. destruct (environ !! key) as [s|]; simpl.
  - rewrite negb_true_iff, String.eqb_neq. split.
    + intros H. exists s. auto.
    + intros (s' & H & Hs). injection H as ->. exact Hs.
  - split; [discriminate|]. intros (s' & H & _). discriminate.
Qed.

(** X2. The switches of [main.py] are read from the environment as text and
    used as they are: validation of inputs, validation of outputs and
    logging are off only when their variable is set to the empty string, so
    the text [False] leaves them on, and raw results are on as soon as
    [RAW_RESULT] is set to any non-empty text, [False] and [0] included. *)
Theorem environment_text_is_not_parsed (environ : gmap string string) :
  (validate_input (Main.decorator_options environ) = false
   <-> environ !! "VALIDATE_INPUT" = Some "") /\
  (validate_output (Main.decorator_options environ) = false
   <-> environ !! "VALIDATE_OUTPUT" = Some "") /\
  (log_execution (Main.decorator_options environ) = false
   <-> environ !! "LOG_EXECUTION" = Some "") /\
  (return_raw_result (Main.decorator_options environ) = true
   <-> exists s, environ !! "RAW_RESULT" = Some s /\ s <> "").
Proof.
  repeat split; try apply environ_switch_on; apply environ_switch_off.
Qed.

(** X3. The monitored [divide_numbers], called with two floats, always
    comes back with an envelope, whatever the options, after entering the
    function once: with status ["error"], no result and the message of its
    [ValueError] when the divisor is a zero of either sign, and otherwise
    with status ["success"], no errors and the quotient as result. *)
Theorem divide_numbers_monitored (E : Env) (o : options) (x y : float) (w : World E) :
  exists l er,
    monitored E o (Sample.divide_numbers E)
      (Sample.positionally [VFloat x; VFloat y]) w
    = (Returns (l, er), end_world E (start_world E w),
       [Called "divide_numbers" (Sample.positionally [VFloat x; VFloat y])]) /\
    if PrimFloat.eqb y 0 then
      status er = "error" /\ result er = VNone /\
      errors er
      = Some ["Execution error: Division by zero is not allowed";
              "Traceback: " +:+
              format_exc E {| exc_kind_of := KException;
                              exc_str := "Division by zero is not allowed" |}]
    else
      status er = "success" /\ errors er = None /\
      result er = VFloat (PrimFloat.div x y).
Proof.
  rewrite monitored_unfold.
  cbn [fn_signature fn_type_hints Sample.divide_numbers].
  rewrite try_block_unfold.
  rewrite (input_validation_unstructured E o _ _ _
             [("a", VFloat x); ("b", VFloat y)]).
  - cbn [fn_body fn_name Sample.divide_numbers].
    replace (Sample.signature ["a"; "b"] (Sample.positionally [VFloat x; VFloat y]))
      with (Returns [("a", VFloat x); ("b", VFloat y)]) by reflexivity.
    cbn [Sample.number]. unfold ret, raise.
    destruct (PrimFloat.eqb y 0).
    + cbn [is_Exception exc_kind_of].
      eexists _, _. split; [reflexivity|]. repeat split.
    + assert (Ho : output_validation E o
                     (<["a" := HClass "float"]>
                        (<["b" := HClass "float"]> (<["return" := HClass "float"]> ∅)))
                     (VFloat (PrimFloat.div x y)) = Returns None).
      { unfold output_validation. destruct (validate_output o); reflexivity. }
      rewrite Ho. eexists _, _. split; [reflexivity|]. repeat split.
  - reflexivity.
  - intros p v. rewrite !elem_of_cons, elem_of_nil.
    intros [H|[H|[]]]; injection H as -> ->; reflexivity.
Qed.

(** * Further instances on the sample process *)

(** The readings of the processor taken around [create_user(john)]: at 2 on
    entry and at 6 after the call. *)
Lemma cpu_usage_is_larger_reading_witness :
  exists l er w' ev,
    monitored verbose default_options (create_user verbose)
      (positionally [john]) 0%nat = (Returns (l, er), w', ev) /\
    (PrimFloat.ltb (fst (cpu_percent verbose 2%nat)) (fst (cpu_percent verbose 6%nat)) = false ->
     cpu_usage er = fst (cpu_percent verbose 2%nat)) /\
    (PrimFloat.ltb (fst (cpu_percent verbose 2%nat)) (fst (cpu_percent verbose 6%nat)) = true ->
     cpu_usage er = fst (cpu_percent verbose 6%nat)) /\
    PrimFloat.leb (fst (cpu_percent verbose 2%nat)) (cpu_usage er) = true /\
    PrimFloat.leb (fst (cpu_percent verbose 6%nat)) (cpu_usage er) = true.
Proof.
  eexists _, _, _, _.
  assert (H : monitored verbose default_options (create_user verbose)
                (positionally [john]) 0%nat = (Returns (_, _), _, _)) by reflexivity.
  split; [exact H|].
  destruct (cpu_usage_is_larger_reading verbose _ _ _ _ _ _ _ _ H)
    as (w1 & Hw1 & Hfirst & Hsecond & Hbounds).
  assert (Hw : w1 = 4%nat).
  { destruct Hw1 as [[Hev _] | (out & ev1 & Hf & _)];
      [discriminate Hev | injection Hf as _ <- _; reflexivity]. }
  subst w1. split; [exact Hfirst|]. split; [exact Hsecond|].
  apply Hbounds; reflexivity.
Defined.

(** [create_user()] without its argument: binding fails. *)
Lemma binding_failure_reported_witness :
  exists l er,
    monitored verbose default_options (create_user verbose) (positionally []) 0%nat
    = (Returns (l, er), end_world verbose (start_world verbose 0%nat), []) /\
    status er = "error" /\
    errors er = Some ["Input validation error: missing a required argument: 'user_data'"] /\
    result er = VNone.
Proof.
  apply (binding_failure_reported verbose default_options (create_user verbose)
           (positionally []) 0%nat (Sample.signature ["user_data"])
           (<["user_data" := HModel "UserInput"]> (<["return" := HModel "UserOutput"]> ∅))
           (TypeError "missing a required argument: 'user_data'"));
    try reflexivity.
  apply insert_non_empty.
Defined.

(** Two rejected dictionaries: both are reported, the first one first. *)
Lemma every_rejection_reported_witness :
  validate_arguments verbose
    (<["first" := HModel "UserInput"]> (<["second" := HModel "UserInput"]> ∅))
    [("first", invalid_user); ("second", VDict [])] []
  = (["Input validation failed for first: validation errors for UserInput: age: Input of the wrong type";
      "Input validation failed for second: validation errors for UserInput: name: Field required; age: Field required; email: Field required"],
     None).
Proof.
  rewrite (every_rejection_reported verbose).
  - reflexivity.
  - intros q u. rewrite !elem_of_cons, elem_of_nil.
    intros [H|[H|[]]]; injection H as -> ->; reflexivity.
Defined.

(** [john] is a [UserInput]: the validator is not asked. *)
Lemma instances_are_not_revalidated_witness :
  input_validation verbose default_options (Sample.signature ["user_data"])
    (<["user_data" := HModel "UserInput"]> (<["return" := HModel "UserOutput"]> ∅))
    (positionally [john]) = ([], None).
Proof.
  apply (instances_are_not_revalidated verbose _ _ _ _ [("user_data", john)]).
  - reflexivity.
  - intros p v cls. rewrite elem_of_cons, elem_of_nil.
    intros [H|[]]. injection H as -> ->.
    intros Hc. vm_compute in Hc. injection Hc as <-. reflexivity.
Defined.

(** The parameter of [create_user], handed a number or a dictionary with a
    number as key. *)
Lemma coerce_edge_cases_witness :
  (forall v, has_fields v = false ->
     accept_or_coerce verbose "UserInput" v = Raises (AttributeError_dict v) /\
     validate_param verbose
       (<["user_data" := HModel "UserInput"]> (<["return" := HModel "UserOutput"]> ∅))
       "user_data" v [] = ([], Some (AttributeError_dict v))) /\
  (forall items, forallb is_string_key items = false ->
     accept_or_coerce verbose "UserInput" (VDict items) = Raises TypeError_keywords /\
     validate_param verbose
       (<["user_data" := HModel "UserInput"]> (<["return" := HModel "UserOutput"]> ∅))
       "user_data" (VDict items) [] = ([], Some TypeError_keywords)).
Proof.
  apply (coerce_edge_cases verbose). reflexivity.
Defined.


(** The default options and the ones with [log_level] DEBUG give the same
    envelope, and both calls return the same value. *)
Lemma options_act_locally_witness :
  monitored verbose default_options (create_user verbose) (positionally [john]) 0%nat
  = monitored verbose debug_options (create_user verbose) (positionally [john]) 0%nat /\
  exists v w1 ev ev',
    wrapper verbose default_options (create_user verbose) (positionally [john]) 0%nat
    = (Returns v, w1, ev) /\
    wrapper verbose debug_options (create_user verbose) (positionally [john]) 0%nat
    = (Returns v, w1, ev').
Proof.
  destruct (options_act_locally verbose default_options debug_options
              (create_user verbose) (positionally [john]) 0%nat eq_refl eq_refl)
    as [Hm Hw].
  split; [exact Hm|].
  destruct (Hw eq_refl) as [Hsame _].
  destruct (wrapper verbose default_options (create_user verbose)
              (positionally [john]) 0%nat) as [[[v|e] w1] ev] eqn:Ha;
    [|vm_compute in Ha; discriminate Ha].
  destruct (wrapper verbose debug_options (create_user verbose)
              (positionally [john]) 0%nat) as [[[v'|e] w1'] ev'] eqn:Hb;
    [|vm_compute in Hb; discriminate Hb].
  destruct (Hsame _ _ _ _ _ _ eq_refl eq_refl) as [<- <-].
  exists v, w1, ev, ev'. split; reflexivity.
Defined.

(** [create_user] decorated twice with the default options and called with
    [john]: the inner layer succeeds, the outer one reports an output
    failure, since the inner envelope is no [UserOutput]. *)
Lemma outer_layer_validates_inner_envelope_witness :
  (exists l1 er1 w1 ev1,
      monitored verbose default_options (create_user verbose) (positionally [john])
        (start_world verbose 0%nat) = (Returns (l1, er1), w1, ev1) /\
      status er1 = "success") /\
  exists l2 er2 w2 ev2,
    monitored verbose default_options
      (monitor_function verbose default_options (create_user verbose))
      (positionally [john]) 0%nat = (Returns (l2, er2), w2, ev2) /\
    status er2 = "error" /\
    exists d, errors er2 = Some ["Output validation failed: " +:+ d].
Proof.
  split; [eexists _, _, _, _; split; reflexivity|].
  edestruct (outer_layer_validates_inner_envelope verbose default_options default_options
               (create_user verbose) (positionally [john]) 0%nat)
    as (l2 & er2 & ev2 & H & Hs & He & _); try reflexivity.
  exists l2, er2. eexists _, _. split; [exact H|]. split; [exact Hs|]. eauto.
Defined.
